(** * users.py: registration and authentication over a key-value store

    A shallow embedding of [UserManager] (src/users.py) and the properties
    stated about it.

    Modelling decisions, all on the side of the collaborators the module
    calls and none on the side of the module itself:

    - a Python [str] is a list of Unicode code points ([list N]); [bytes]
      produced by [encode]/[decode] of such text is the same list, UTF-8
      being injective on it; encoding the password to hash raises on a
      lone surrogate;
    - the values that travel through [ujson] are the JSON-shaped Python
      values [pyval] (floats are left out); a bcrypt hash, which is [bytes]
      that [ujson] writes as a JSON string, is text throughout;
    - the process has one mutable [World]: the Redis keyspace, the running
      list of observable effects (log lines, Redis commands, mails) and the
      number of random draws made so far;
    - what the libraries compute ([bcrypt], [ujson], [uuid], [str.isalpha]
      outside ASCII, [os.environ]) is a record [Env] of functions every
      statement quantifies over;
    - Redis and the mailer answer every call: connection failures are outside
      the model. *)

From Stdlib Require Import ZArith List String Ascii Lia Bool.
From stdpp Require Import base option list gmap pretty.

Open Scope Z_scope.
Open Scope list_scope.

(** ** Text *)

Abbreviation str := (list N).

(** [lit "abc"] is the Python literal ['abc']. *)
Fixpoint lit (s : string) : str :=
  match s with
  | EmptyString => []
  | String a s' => N_of_ascii a :: lit s'
  end.

Arguments lit : simpl never.

(** [p in s] for two strings: [p] occurs in [s] as a contiguous block. *)
Fixpoint startswith (s p : str) : bool :=
  match p, s with
  | [], _ => true
  | _ :: _, [] => false
  | a :: p', b :: s' => N.eqb a b && startswith s' p'
  end.

Fixpoint str_contains (s p : str) : bool :=
  startswith s p ||
  match s with
  | [] => false
  | _ :: s' => str_contains s' p
  end.

Definition str_eqb (a b : str) : bool := bool_decide (a = b).

(** ** Python values and exceptions *)

#[local] Set Warnings "-register-all".

Inductive pyval : Type :=
| PNone
| PBool (b : bool)
| PInt (z : Z)
| PStr (s : str)
| PList (l : list pyval)
| PDict (d : list (str * pyval)).

(** The exception classes of users.py, and the built-in ones its
    expressions can raise. The specification calls
    [InvalidAuthLoginException] AuthFailure, [InvalidRegistrationUsername]
    InvalidUsername, [InvalidRegistrationEmail] InvalidEmail and
    [UserAlreadyExistsException] UserAlreadyExists. [DataError] is the
    error of redis-py. *)
Inductive exn : Type :=
| UserAlreadyExistsException
| InvalidAuthLoginException
| InvalidAuthTokenException
| InvalidRegistrationToken
| InvalidRegistrationUsername
| InvalidRegistrationEmail
| KeyError (key : str)
| TypeError
| AttributeError
| ValueError
| UnicodeEncodeError
| DataError.


Inductive result (A : Type) : Type :=
| Ok (a : A)
| Raise (e : exn).
Arguments Ok {A} a.
Arguments Raise {A} e.

(** [d[k]] *)
Fixpoint dict_get (d : list (str * pyval)) (k : str) : option pyval :=
  match d with
  | [] => None
  | (k', v) :: d' => if str_eqb k' k then Some v else dict_get d' k
  end.

Definition getitem (v : pyval) (k : str) : result pyval :=
  match v with
  | PDict d => match dict_get d k with Some x => Ok x | None => Raise (KeyError k) end
  | _ => Raise TypeError
  end.

Definition is_str (x : str) (v : pyval) : bool :=
  match v with PStr s => str_eqb s x | _ => false end.

(** [x in v] for a string [x]: substring of a string, element of a list,
    key of a dict; the other values are not iterable. *)
Definition py_in (x : str) (v : pyval) : result bool :=
  match v with
  | PStr s => Ok (str_contains s x)
  | PList l => Ok (existsb (is_str x) l)
  | PDict d => Ok (existsb (fun kv => str_eqb (fst kv) x) d)
  | _ => Raise TypeError
  end.

(** [v.encode('utf-8')] *)
Definition py_encode (v : pyval) : result str :=
  match v with
  | PStr s => Ok s
  | _ => Raise AttributeError
  end.

(** [s.encode('utf-8')] for the text a caller passes in: a lone surrogate
    (U+D800..U+DFFF) has no UTF-8 form and the call raises. *)
Definition is_surrogate (c : N) : bool := ((55296 <=? c) && (c <=? 57343))%N.

Definition utf8_encode (s : str) : result str :=
  if existsb is_surrogate s then Raise UnicodeEncodeError else Ok s.

(** ** The libraries *)

Record Env : Type := {
  (** general category L* for the code points from 128 on *)
  unicode_letter : N -> bool;
  (** [str(v)] for a value that is not a string *)
  py_repr : pyval -> str;
  (** the bytes redis-py sends for a value that is not a string, or the
      error it raises for a type it refuses *)
  redis_encode : pyval -> result str;
  (** [str(uuid.uuid4())] at the n-th random draw *)
  uuid4_at : nat -> str;
  (** [bcrypt.gensalt()] at the n-th random draw *)
  gensalt_at : nat -> str;
  (** [bcrypt.hashpw(password, salt)] on the encoded password: the hash,
      or the error bcrypt raises (a NUL byte, a password it refuses) *)
  bcrypt_hashpw : str -> str -> result str;
  bcrypt_checkpw : str -> str -> result bool;
  ujson_dumps : pyval -> str;
  ujson_loads : str -> result pyval;
  (** [os.environ] *)
  environ : str -> option str
}.

(** ** The world *)

(** [timedelta(days=1)], in seconds. *)
Definition one_day : Z := 86400.

Record entry : Type := Entry { payload : str; expiry : option Z }.

Inductive event : Type :=
| LogInfo (msg : str)
| RedisSet (key value : str) (ex : option Z)
| RedisGet (key : str)
| RedisExists (key : str)
| RedisDelete (key : str)
| SendMail (to : pyval) (subject body : str).

Record World : Type := mkWorld {
  redis : gmap str entry;
  effects : list event;
  entropy : nat
}.

Definition emit (e : event) (w : World) : World :=
  mkWorld (redis w) (effects w ++ [e]) (entropy w).

Definition with_redis (f : gmap str entry -> gmap str entry) (w : World) : World :=
  mkWorld (f (redis w)) (effects w) (entropy w).

Definition M (A : Type) : Type := World -> result A * World.

#[global] Instance M_ret : MRet M := fun A a w => (Ok a, w).

#[global] Instance M_bind : MBind M := fun A B f m w =>
  match m w with
  | (Ok a, w') => f a w'
  | (Raise e, w') => (Raise e, w')
  end.

Definition raise {A} (e : exn) : M A := fun w => (Raise e, w).

Definition lift {A} (r : result A) : M A := fun w => (r, w).

(** [try: body except Exception as e: handler; raise e] *)
Definition try_reraise {A} (body : M A) (handler : M unit) : M A := fun w =>
  match body w with
  | (Ok a, w') => (Ok a, w')
  | (Raise e, w') =>
      match handler w' with
      | (Ok _, w'') => (Raise e, w'')
      | (Raise e', w'') => (Raise e', w'')
      end
  end.

(** *** Redis *)

Definition redis_set (k v : str) (ex : option Z) : M unit := fun w =>
  (Ok tt, with_redis (insert k (Entry v ex)) (emit (RedisSet k v ex) w)).

Definition redis_get (k : str) : M (option str) := fun w =>
  (Ok (payload <$> redis w !! k), emit (RedisGet k) w).

Definition redis_exists (k : str) : M Z := fun w =>
  (Ok (if redis w !! k is Some _ then 1 else 0), emit (RedisExists k) w).

Definition redis_delete (k : str) : M Z := fun w =>
  (Ok (if redis w !! k is Some _ then 1 else 0), with_redis (delete k) (emit (RedisDelete k) w)).

(** Truth value of what [get] returns: [None] and [b''] are false. *)
Definition truthy_bytes (v : option str) : bool :=
  match v with
  | Some (_ :: _) => true
  | _ => false
  end.

(** *** Logger, mailer, randomness *)

Definition logger_info (msg : str) : M unit := fun w => (Ok tt, emit (LogInfo msg) w).

(** Modelled from the spec: [emails.send_simple_message] is a module of the
    repository that is not part of src/. The Notifier contract is
    [send(address, subject, body)], fire-and-forget, with no return value
    consumed: the call is recorded and returns. *)
Definition send_simple_message (to : pyval) (subject body : str) : M unit := fun w =>
  (Ok tt, emit (SendMail to subject body) w).

Definition draw : M nat := fun w =>
  (Ok (entropy w), mkWorld (redis w) (effects w) (S (entropy w))).

(** *** Running an operation *)

(** What an operation returns or raises, and the world it leaves. *)
Definition outcome {A} (m : M A) (w : World) : result A := fst (m w).

Definition after {A} (m : M A) (w : World) : World := snd (m w).

(** The effects an operation adds to the ones already recorded. *)
Definition new_effects {A} (m : M A) (w : World) : list event :=
  drop (length (effects w)) (effects (after m w)).

(** ** Regular expressions

    The fragment of [re] the module uses, with Python's [re.match]: the
    pattern is tried at the start of the text and need not reach its end. *)

Module Re.

Inductive re : Type :=
| Void
| Eps
| Chr (c : N)
| NotChr (c : N)
| Cat (r1 r2 : re)
| Alt (r1 r2 : re)
| Star (r : re).

(** [r+] *)
Definition Plus (r : re) : re := Cat r (Star r).

Fixpoint nullable (r : re) : bool :=
  match r with
  | Void => false
  | Eps => true
  | Chr _ => false
  | NotChr _ => false
  | Cat r1 r2 => nullable r1 && nullable r2
  | Alt r1 r2 => nullable r1 || nullable r2
  | Star _ => true
  end.

(** What is left of [r] once it has read [a]. *)
Fixpoint deriv (a : N) (r : re) : re :=
  match r with
  | Void => Void
  | Eps => Void
  | Chr c => if N.eqb a c then Eps else Void
  | NotChr c => if N.eqb a c then Void else Eps
  | Cat r1 r2 =>
      if nullable r1 then Alt (Cat (deriv a r1) r2) (deriv a r2)
      else Cat (deriv a r1) r2
  | Alt r1 r2 => Alt (deriv a r1) (deriv a r2)
  | Star r1 => Cat (deriv a r1) (Star r1)
  end.

(** [re.match(r, s) is not None] *)
Fixpoint py_match (r : re) (s : str) : bool :=
  nullable r ||
  match s with
  | [] => false
  | a :: s' => py_match (deriv a r) s'
  end.

(** The language of a pattern. *)
Inductive matches : re -> str -> Prop :=
| MEps : matches Eps []
| MChr c : matches (Chr c) [c]
| MNotChr c a : a <> c -> matches (NotChr c) [a]
| MCat r1 r2 s1 s2 : matches r1 s1 -> matches r2 s2 -> matches (Cat r1 r2) (s1 ++ s2)
| MAltL r1 r2 s : matches r1 s -> matches (Alt r1 r2) s
| MAltR r1 r2 s : matches r2 s -> matches (Alt r1 r2) s
| MStarNil r : matches (Star r) []
| MStarApp r s1 s2 : matches r s1 -> matches (Star r) s2 -> matches (Star r) (s1 ++ s2).

End Re.

Definition at_sign : N := 64.
Definition full_stop : N := 46.

(** [r"[^@]+@[^@]+\.[^@]+"] *)
Definition email_pattern : Re.re :=
  Re.Cat (Re.Plus (Re.NotChr at_sign))
    (Re.Cat (Re.Chr at_sign)
       (Re.Cat (Re.Plus (Re.NotChr at_sign))
          (Re.Cat (Re.Chr full_stop) (Re.Plus (Re.NotChr at_sign))))).

(** ** [str.isalpha] *)

Definition ascii_letter (c : N) : bool :=
  ((65 <=? c) && (c <=? 90) || (97 <=? c) && (c <=? 122))%N.

Definition char_isalpha (env : Env) (c : N) : bool :=
  if (c <? 128)%N then ascii_letter c else unicode_letter env c.

(** [s.isalpha()]: every character is a letter and there is at least one. *)
Definition isalpha (env : Env) (s : str) : bool :=
  match s with
  | [] => false
  | _ :: _ => forallb (char_isalpha env) s
  end.

(** ** UserManager *)

Section UserManager.

Context (env : Env).

(** ['{}'.format(v)] *)
Definition format_arg (v : pyval) : str :=
  match v with
  | PStr s => s
  | _ => py_repr env v
  end.

(** The bytes redis-py stores for [v]. *)
Definition redis_value (v : pyval) : result str :=
  match v with
  | PStr s => Ok s
  | _ => redis_encode env v
  end.

(** [os.getenv(k)] and [os.environ[k]] *)
Definition os_getenv (k : str) : option str := environ env k.

Definition os_environ (k : str) : result str :=
  match environ env k with
  | Some v => Ok v
  | None => Raise (KeyError k)
  end.

Definition _user_id (username : pyval) : str := lit "user:" ++ format_arg username.

Definition _registration_id (registration_token : str) : str :=
  lit "registration:" ++ registration_token.

Definition _token_id (auth_token : str) : str := lit "auth:" ++ auth_token.

Definition user_record (username email hash_password : pyval) (auth_token : str) : pyval :=
  PDict [ (lit "username", username);
          (lit "email", email);
          (lit "password", hash_password);
          (lit "auth_token", PStr auth_token) ].

Definition registration_record (username email hash_password : str) : pyval :=
  PDict [ (lit "username", PStr username);
          (lit "email", PStr email);
          (lit "password", PStr hash_password) ].

Definition token_mail_subject : str := lit "Your account in Megachess is confirmed!!!".

Definition token_mail_body (username : pyval) (auth_token : str) : str :=
  lit "<p>This is your personal auth_token to play for username "
    ++ format_arg username ++ lit "</p><p><strong>" ++ auth_token ++ lit "</strong></p>".

Definition _save_user (username hash_password email : pyval) : M str :=
  logger_info (lit "_save_user username: " ++ format_arg username);;
  try_reraise
    (n ← draw;
     let auth_token := uuid4_at env n in
     let user := ujson_dumps env (user_record username email hash_password auth_token) in
     redis_set (_user_id username) user None;;
     name ← lift (redis_value username);
     redis_set (_token_id auth_token) name None;;
     send_simple_message email token_mail_subject (token_mail_body username auth_token);;
     mret auth_token)
    (logger_info (lit "_save_user username: " ++ format_arg username ++ lit " Exception")).

Definition _hash_password (password : str) : M str :=
  encoded ← lift (utf8_encode password);
  n ← draw;
  lift (bcrypt_hashpw env encoded (gensalt_at env n)).

Definition _save_registration (username hash_password email : str) : M str :=
  logger_info (lit "_save_registration username: " ++ username);;
  try_reraise
    (n ← draw;
     let registration_token := uuid4_at env n in
     let registration := ujson_dumps env (registration_record username email hash_password) in
     redis_set (_registration_id registration_token) registration (Some one_day);;
     mret registration_token)
    (logger_info (lit "_save_registration username: " ++ username ++ lit " Exception")).

Definition _is_password_valid (password : str) (user : pyval) : result bool :=
  match getitem user (lit "password") with
  | Raise e => Raise e
  | Ok h =>
      match py_encode h with
      | Raise e => Raise e
      | Ok hashed => bcrypt_checkpw env password hashed
      end
  end.

(** The second pattern of the source, assigned and never used. *)
Definition email_validator : str :=
  lit "^[a-z]([w-]*[a-z]|[w-.]*[a-z]{2,}|[a-z])*@[a-z]([w-]*[a-z]|[w-.]*[a-z]{2,}|[a-z]){4,}?.[a-z]{2,}$".

Definition validate_registration (username email : str) : M unit :=
  if negb (isalpha env username) then raise InvalidRegistrationUsername
  else if negb (Re.py_match email_pattern email) then raise InvalidRegistrationEmail
  else
    found ← redis_get (_user_id (PStr username));
    if truthy_bytes found then
      logger_info (lit "register username: " ++ username ++ lit " UserAlreadyExistsException");;
      raise UserAlreadyExistsException
    else mret tt.

(** [auto_hash == os.getenv('AUTO_REGISTER_TOKEN') if auto_hash else False] *)
Definition auto_register (auto_hash : option str) : bool :=
  match auto_hash with
  | Some (c :: h) => bool_decide (os_getenv (lit "AUTO_REGISTER_TOKEN") = Some (c :: h))
  | _ => false
  end.

Definition confirm_mail_subject : str := lit "Welcome to Megachess!!".

Definition confirm_mail_body (domain_url registration_token : str) : str :=
  lit "<p>Please confirm your email account</p><a href="
    ++ [34%N] ++ domain_url ++ lit "/confirm_registration?token=" ++ registration_token
    ++ [34%N] ++ lit ">CONFIRM YOUR REGISTRATION</a>".

(** Returns [None] on the automatic path and [True] on the other. *)
Definition register (username password email : str) (auto_hash : option str) : M pyval :=
  logger_info (lit "register username: " ++ username);;
  validate_registration username email;;
  logger_info (lit "register username: " ++ username ++ lit " ok");;
  hash_password ← _hash_password password;
  if auto_register auto_hash then
    _save_user (PStr username) (PStr hash_password) (PStr email);;
    mret PNone
  else
    registration_token ← _save_registration username hash_password email;
    domain_url ← lift (os_environ (lit "DOMAIN_URL"));
    send_simple_message (PStr email) confirm_mail_subject
      (confirm_mail_body domain_url registration_token);;
    mret (PBool true).

(** [ujson.loads] of what [get] returned. *)
Definition loads (v : option str) : result pyval :=
  match v with
  | Some s => ujson_loads env s
  | None => Raise TypeError
  end.

Definition confirm_registration (registration_token : str) : M unit :=
  let registration_id := _registration_id registration_token in
  n ← redis_exists registration_id;
  if n =? 0 then raise InvalidRegistrationToken
  else
    registration_string ← redis_get registration_id;
    redis_delete registration_id;;
    registration ← lift (loads registration_string);
    username ← lift (getitem registration (lit "username"));
    password ← lift (getitem registration (lit "password"));
    email ← lift (getitem registration (lit "email"));
    _save_user username password email;;
    mret tt.

Definition get_user_by_username (username : str) : M pyval :=
  n ← redis_exists (_user_id (PStr username));
  if n =? 0 then raise InvalidAuthLoginException
  else
    user_string ← redis_get (_user_id (PStr username));
    user ← lift (loads user_string);
    stored ← lift (getitem user (lit "username"));
    inside ← lift (py_in username stored);
    if negb inside then raise InvalidAuthLoginException
    else mret user.

Definition get_auth_token (username password : str) : M pyval :=
  logger_info (lit "get auth token username: " ++ username);;
  user ← get_user_by_username username;
  valid ← lift (_is_password_valid password user);
  if negb valid then raise InvalidAuthLoginException
  else lift (getitem user (lit "auth_token")).

Definition get_username_by_auth_token (auth_token : str) : M str :=
  n ← redis_exists (_token_id auth_token);
  if n =? 0 then raise InvalidAuthTokenException
  else
    name ← redis_get (_token_id auth_token);
    match name with
    | Some s => mret s
    | None => raise AttributeError
    end.

End UserManager.

(** ** A concrete environment

    Stand-ins for the libraries, used to run the module on explicit inputs.
    The general statements below do not depend on them. *)

Module Ujson.

(** JSON text without white space; the quote and the backslash are the
    only characters escaped. *)
Fixpoint escape (s : str) : str :=
  match s with
  | [] => []
  | c :: s' =>
      if (c =? 34)%N || (c =? 92)%N then 92%N :: c :: escape s' else c :: escape s'
  end.

Definition quote (s : str) : str := [34%N] ++ escape s ++ [34%N].

Definition join (parts : list str) : str :=
  match parts with
  | [] => []
  | p :: ps => p ++ concat (map (fun q => lit "," ++ q) ps)
  end.

Fixpoint dumps (v : pyval) : str :=
  match v with
  | PNone => lit "null"
  | PBool true => lit "true"
  | PBool false => lit "false"
  | PInt z => lit (pretty z)
  | PStr s => quote s
  | PList l => lit "[" ++ join (map dumps l) ++ lit "]"
  | PDict d =>
      lit "{" ++ join (map (fun kv => quote (fst kv) ++ lit ":" ++ dumps (snd kv)) d) ++ lit "}"
  end.

Definition is_space (c : N) : bool := ((c =? 32) || (c =? 9) || (c =? 10) || (c =? 13))%N.

Definition is_digit (c : N) : bool := ((48 <=? c) && (c <=? 57))%N.

Fixpoint skip_ws (s : str) : str :=
  match s with
  | c :: s' => if is_space c then skip_ws s' else s
  | [] => []
  end.

(** The text after an opening quote, up to the closing one. *)
Fixpoint read_string (s acc : str) : option (str * str) :=
  match s with
  | [] => None
  | c :: s' =>
      if (c =? 34)%N then Some (rev acc, s')
      else if (c =? 92)%N then
        match s' with
        | e :: s'' => read_string s'' (e :: acc)
        | [] => None
        end
      else read_string s' (c :: acc)
  end.

Fixpoint read_digits (s : str) (acc : Z) : Z * str :=
  match s with
  | c :: s' => if is_digit c then read_digits s' (10 * acc + (Z.of_N c - 48)) else (acc, s)
  | [] => (acc, [])
  end.

Section Containers.

Variable read_value : str -> option (pyval * str).

(** After [[]: the elements, up to the closing bracket. *)
Fixpoint read_elements (fuel : nat) (s : str) (acc : list pyval) : option (pyval * str) :=
  match fuel with
  | O => None
  | S fuel' =>
      match skip_ws s with
      | c :: s' =>
          if (c =? 93)%N then Some (PList (rev acc), s')
          else if (c =? 44)%N then read_elements fuel' s' acc
          else
            match read_value (c :: s') with
            | Some (v, rest) => read_elements fuel' rest (v :: acc)
            | None => None
            end
      | [] => None
      end
  end.

(** After [{]: the members, up to the closing brace. *)
Fixpoint read_members (fuel : nat) (s : str) (acc : list (str * pyval)) : option (pyval * str) :=
  match fuel with
  | O => None
  | S fuel' =>
      match skip_ws s with
      | c :: s' =>
          if (c =? 125)%N then Some (PDict (rev acc), s')
          else if (c =? 44)%N then read_members fuel' s' acc
          else if (c =? 34)%N then
            match read_string s' [] with
            | Some (k, rest) =>
                match skip_ws rest with
                | colon :: rest' =>
                    if (colon =? 58)%N then
                      match read_value rest' with
                      | Some (v, rest'') => read_members fuel' rest'' ((k, v) :: acc)
                      | None => None
                      end
                    else None
                | [] => None
                end
            | None => None
            end
          else None
      | [] => None
      end
  end.

End Containers.

Fixpoint read_value (fuel : nat) (s : str) : option (pyval * str) :=
  match fuel with
  | O => None
  | S fuel' =>
      match skip_ws s with
      | [] => None
      | c :: s' =>
          if (c =? 34)%N then
            match read_string s' [] with
            | Some (t, rest) => Some (PStr t, rest)
            | None => None
            end
          else if (c =? 123)%N then read_members (read_value fuel') (length s) s' []
          else if (c =? 91)%N then read_elements (read_value fuel') (length s) s' []
          else if (c =? 45)%N then
            match s' with
            | d :: _ =>
                if is_digit d then
                  let (z, rest) := read_digits s' 0 in Some (PInt (- z), rest)
                else None
            | [] => None
            end
          else if is_digit c then
            let (z, rest) := read_digits (c :: s') 0 in Some (PInt z, rest)
          else if startswith (c :: s') (lit "null") then Some (PNone, drop 4 (c :: s'))
          else if startswith (c :: s') (lit "true") then Some (PBool true, drop 4 (c :: s'))
          else if startswith (c :: s') (lit "false") then Some (PBool false, drop 5 (c :: s'))
          else None
      end
  end.

Definition loads (s : str) : result pyval :=
  match read_value (S (length s)) s with
  | Some (v, rest) => if skip_ws rest is [] then Ok v else Raise ValueError
  | None => Raise ValueError
  end.

End Ujson.

Module Bcrypt.

(** Keeps the interface of bcrypt and none of its cryptography: the hash
    starts with the salt, the salt starts with [$2b$], [checkpw] recomputes
    the hash with the salt it finds in it and raises [ValueError] (bcrypt's
    "Invalid salt") on a text that does not start like a hash. *)
Definition gensalt (n : nat) : str := lit "$2b$12$" ++ lit (pretty n) ++ lit "$".

Definition digest (salt password : str) : str := rev password ++ rev (drop 7 salt).

Definition hashpw (password salt : str) : str := salt ++ digest salt password.

(** [hashpw] as the library answers it: a password with a NUL byte or of
    more than 72 bytes is refused with [ValueError]. *)
Definition try_hashpw (password salt : str) : result str :=
  if existsb (N.eqb 0) password || (72 <? length password)%nat then Raise ValueError
  else Ok (hashpw password salt).

(** The salt of a hash: up to the third [$] after the prefix. *)
Fixpoint salt_end (s : str) : option nat :=
  match s with
  | [] => None
  | c :: s' => if (c =? 36)%N then Some 1%nat else S <$> salt_end s'
  end.

Definition checkpw (password hashed : str) : result bool :=
  if startswith hashed (lit "$2b$12$") then
    match salt_end (drop 7 hashed) with
    | Some n => Ok (str_eqb (hashpw password (take (7 + n) hashed)) hashed)
    | None => Raise ValueError
    end
  else Raise ValueError.

End Bcrypt.

(** [str()] of the values that are not strings; containers are written in
    their JSON form. *)
Definition repr0 (v : pyval) : str :=
  match v with
  | PNone => lit "None"
  | PBool true => lit "True"
  | PBool false => lit "False"
  | _ => Ujson.dumps v
  end.

(** redis-py sends numbers as their decimal text and refuses the rest. *)
Definition redis_encode0 (v : pyval) : result str :=
  match v with
  | PInt z => Ok (lit (pretty z))
  | PStr s => Ok s
  | _ => Raise DataError
  end.

(** A fragment of the table of letters: U+00C0..U+024F (Latin-1
    Supplement, Latin Extended A and B), where all is a letter but the two
    operators. The examples stay inside ASCII. *)
Definition latin_letter (c : N) : bool :=
  ((192 <=? c) && (c <=? 591) && negb (c =? 215) && negb (c =? 247))%N.

Definition uuid0 (n : nat) : str := lit "00000000-0000-4000-8000-" ++ lit (pretty n).

Definition environ0 (k : str) : option str :=
  if str_eqb k (lit "AUTO_REGISTER_TOKEN") then Some (lit "s3cret")
  else if str_eqb k (lit "DOMAIN_URL") then Some (lit "https://megachess.example")
  else None.

Definition env0 : Env :=
  {| unicode_letter := latin_letter;
     py_repr := repr0;
     redis_encode := redis_encode0;
     uuid4_at := uuid0;
     gensalt_at := Bcrypt.gensalt;
     bcrypt_hashpw := Bcrypt.try_hashpw;
     bcrypt_checkpw := Bcrypt.checkpw;
     ujson_dumps := Ujson.dumps;
     ujson_loads := Ujson.loads;
     environ := environ0 |}.

Definition world0 : World := mkWorld ∅ [] 0.


(** ** Vocabulary of the statements *)

(** The address shape in the words of the specification: at least one
    character other than [@], an [@], at least one character other than
    [@], a dot, and at least one trailing character. *)
Definition spec_email_shape (email : str) : Prop :=
  exists l d t,
    email = l ++ at_sign :: d ++ full_stop :: t
    /\ l <> [] /\ (at_sign ∉ l) /\ d <> [] /\ (at_sign ∉ d) /\ t <> [].

(** The shape the pattern of the source accepts: the character after the
    dot is not an [@], and what follows it is free. *)
Definition email_shape (email : str) : Prop :=
  exists l d c rest,
    email = l ++ at_sign :: d ++ full_stop :: c :: rest
    /\ l <> [] /\ (at_sign ∉ l) /\ d <> [] /\ (at_sign ∉ d) /\ c <> at_sign.

(** ** Worlds of the examples *)

Definition alice : str := lit "alice".

Definition world_of (kvs : list (str * entry)) : World := mkWorld (list_to_map kvs) [] 0.

(** The record of a confirmed [alice] with password ['Passw0rd!']. *)
Definition alice_record : pyval :=
  user_record (PStr alice) (PStr (lit "alice@example.com"))
    (PStr (Bcrypt.hashpw (lit "Passw0rd!") (Bcrypt.gensalt 0))) (uuid0 1).

(** [alice] is confirmed. *)
Definition world_alice : World :=
  world_of [ (lit "user:alice", Entry (Ujson.dumps alice_record) None);
             (lit "auth:" ++ uuid0 1, Entry alice None) ].

(** The record of [alice] sits under the key of [ali]. *)
Definition world_misfiled : World :=
  world_of [ (lit "user:ali", Entry (Ujson.dumps alice_record) None) ].



Definition is_mail (e : event) : bool :=
  match e with
  | SendMail _ _ _ => true
  | _ => false
  end.

(** [alice] has registered and not confirmed yet; her registration token is
    the second draw. *)
Definition world_pending : World :=
  after (register env0 alice (lit "Passw0rd!") (lit "alice@example.com") None) world0.

(** The confirmation as the specification words its mechanism: the record
    is read, and one delete that says whether the key was there decides
    whether the token is valid. No separate existence check is made. *)
Definition confirm_registration_delete_and_check (env : Env) (registration_token : str) : M unit :=
  let registration_id := _registration_id registration_token in
  registration_string ← redis_get registration_id;
  existed ← redis_delete registration_id;
  if existed =? 0 then raise InvalidRegistrationToken
  else
    registration ← lift (loads env registration_string);
    username ← lift (getitem registration (lit "username"));
    password ← lift (getitem registration (lit "password"));
    email ← lift (getitem registration (lit "email"));
    _save_user env username password email;;
    mret tt.

Definition is_exists (e : event) : bool :=
  match e with
  | RedisExists _ => true
  | _ => false
  end.

(** The index [auth:<token>] and the user records agree: a token is indexed
    exactly when some stored user record carries it. *)
Definition user_with_token (env : Env) (r : gmap str entry) (token : str) : Prop :=
  exists username ent user,
    r !! _user_id env username = Some ent
    /\ ujson_loads env (payload ent) = Ok user
    /\ getitem user (lit "auth_token") = Ok (PStr token).

Definition token_index_exact (env : Env) (r : gmap str entry) : Prop :=
  forall token, is_Some (r !! _token_id token) <-> user_with_token env r token.

(** The username [alice] is registered twice before either registration is
    confirmed, and then both are confirmed. The registration tokens are the
    draws 1 and 3, the auth tokens the draws 4 and 5. *)
Definition world_registered_twice : World :=
  after (register env0 alice (lit "other") (lit "mallory@example.com") None) world_pending.

Definition world_confirmed_once : World :=
  after (confirm_registration env0 (uuid0 1)) world_registered_twice.

Definition world_confirmed_twice : World :=
  after (confirm_registration env0 (uuid0 3)) world_confirmed_once.

(** The Redis commands of [confirm_registration] taken apart, so that two
    clients of the same store can be run with their commands interleaved:
    the existence check, the read, and the delete with what follows it. *)
Definition confirm_check (registration_token : str) : M unit :=
  n ← redis_exists (_registration_id registration_token);
  if n =? 0 then raise InvalidRegistrationToken else mret tt.

Definition confirm_fetch (registration_token : str) : M (option str) :=
  redis_get (_registration_id registration_token).

Definition confirm_finish (env : Env) (registration_token : str)
    (registration_string : option str) : M unit :=
  redis_delete (_registration_id registration_token);;
  registration ← lift (loads env registration_string);
  username ← lift (getitem registration (lit "username"));
  password ← lift (getitem registration (lit "password"));
  email ← lift (getitem registration (lit "email"));
  _save_user env username password email;;
  mret tt.

(** Two confirmations of the same token, their commands alternating. The
    result is the pair of what the two clients get. *)
Definition confirm_interleaved (env : Env) (registration_token : str) : M (unit * unit) :=
  confirm_check registration_token;;
  confirm_check registration_token;;
  first ← confirm_fetch registration_token;
  second ← confirm_fetch registration_token;
  a ← confirm_finish env registration_token first;
  b ← confirm_finish env registration_token second;
  mret (a, b).

(** A deployment with no [DOMAIN_URL] in its environment. *)
Definition env_no_domain : Env :=
  {| unicode_letter := latin_letter;
     py_repr := repr0;
     redis_encode := redis_encode0;
     uuid4_at := uuid0;
     gensalt_at := Bcrypt.gensalt;
     bcrypt_hashpw := Bcrypt.try_hashpw;
     bcrypt_checkpw := Bcrypt.checkpw;
     ujson_dumps := Ujson.dumps;
     ujson_loads := Ujson.loads;
     environ := fun k => if str_eqb k (lit "DOMAIN_URL") then None else environ0 k |}.

(** A deployment with no [AUTO_REGISTER_TOKEN] in its environment. *)
Definition env_no_secret : Env :=
  {| unicode_letter := latin_letter;
     py_repr := repr0;
     redis_encode := redis_encode0;
     uuid4_at := uuid0;
     gensalt_at := Bcrypt.gensalt;
     bcrypt_hashpw := Bcrypt.try_hashpw;
     bcrypt_checkpw := Bcrypt.checkpw;
     ujson_dumps := Ujson.dumps;
     ujson_loads := Ujson.loads;
     environ := fun k => if str_eqb k (lit "AUTO_REGISTER_TOKEN") then None else environ0 k |}.

(** Under a registration token sits a text that is not JSON. *)
Definition world_garbled : World :=
  world_of [ (_registration_id (lit "t0"), Entry (lit "not json") (Some one_day)) ].

(** * Properties *)

(** ** The matcher reads the language of the pattern *)

Module ReFacts.
Import Re.

Lemma cat_inv r1 r2 s :
  matches (Cat r1 r2) s -> exists s1 s2, s = s1 ++ s2 /\ matches r1 s1 /\ matches r2 s2.
Proof. intros H. inversion H; subst. eauto. Qed.

Lemma alt_inv r1 r2 s : matches (Alt r1 r2) s -> matches r1 s \/ matches r2 s.
Proof. intros H. inversion H; subst; auto. Qed.

Lemma nullable_matches r : nullable r = true <-> matches r [].
Proof.
  induction r; simpl; split; intros H;
    try discriminate; try solve [constructor]; try solve [inversion H].
  - apply andb_prop in H as [H1 H2].
    change (@nil N) with (@nil N ++ @nil N). constructor; tauto.
  - apply cat_inv in H as (s1 & s2 & E & H1 & H2). symmetry in E.
    apply app_eq_nil in E as [-> ->].
    apply andb_true_intro; tauto.
  - apply orb_prop in H as [H|H]; [apply MAltL|apply MAltR]; tauto.
  - inversion H; subst; apply orb_true_intro; tauto.
Qed.

(** A word of [r1 r2] that starts with [a] takes its [a] from [r1], or
    [r1] is empty there and [r2] gives it. *)
Lemma cat_cons_inv r1 r2 a s :
  matches (Cat r1 r2) (a :: s) ->
  (exists s1 s2, s = s1 ++ s2 /\ matches r1 (a :: s1) /\ matches r2 s2)
  \/ (matches r1 [] /\ matches r2 (a :: s)).
Proof.
  intros H. apply cat_inv in H as (s1 & s2 & E & H1 & H2).
  destruct s1 as [|b s1]; simpl in E.
  - right. subst. tauto.
  - left. injection E as -> ->. eauto.
Qed.

Lemma star_cons_inv r a s :
  matches (Star r) (a :: s) ->
  exists s1 s2, s = s1 ++ s2 /\ matches r (a :: s1) /\ matches (Star r) s2.
Proof.
  intros H. remember (Star r) as r' eqn:Er. remember (a :: s) as w eqn:Ew.
  revert Er Ew.
  induction H as [| | | | | | |r0 s1 s2 H1 _ H2 IH2]; intros Er Ew; try discriminate.
  injection Er as ->.
  destruct s1 as [|b s1]; simpl in Ew.
  - apply IH2; [reflexivity | exact Ew].
  - injection Ew as -> <-. eauto.
Qed.

Lemma deriv_matches a r : forall s, matches (deriv a r) s <-> matches r (a :: s).
Proof.
  induction r as [| |c|c|r1 IH1 r2 IH2|r1 IH1 r2 IH2|r1 IH1]; intros s; simpl.
  - split; intros H; inversion H.
  - split; intros H; inversion H.
  - destruct (N.eqb_spec a c) as [->|Hne].
    + split; intros H; inversion H; subst; constructor.
    + split; intros H; inversion H; subst; congruence.
  - destruct (N.eqb_spec a c) as [->|Hne].
    + split; intros H; inversion H; subst; congruence.
    + split; intros H; inversion H; subst. now constructor. constructor.
  - destruct (nullable r1) eqn:Hn.
    + split.
      * intros H. apply alt_inv in H as [H'|H'].
        -- apply cat_inv in H' as (s1 & s2 & -> & H1 & H2).
           change (a :: s1 ++ s2) with ((a :: s1) ++ s2).
           constructor; [now apply IH1 | assumption].
        -- change (a :: s) with ([] ++ a :: s).
           constructor; [now apply nullable_matches | now apply IH2].
      * intros H. apply cat_cons_inv in H as [(s1 & s2 & -> & H1 & H2)|[_ H2]].
        -- apply MAltL. constructor; [now apply IH1 | assumption].
        -- apply MAltR. now apply IH2.
    + split.
      * intros H. apply cat_inv in H as (s1 & s2 & -> & H1 & H2).
        change (a :: s1 ++ s2) with ((a :: s1) ++ s2).
        constructor; [now apply IH1 | assumption].
      * intros H. apply cat_cons_inv in H as [(s1 & s2 & -> & H1 & H2)|[H1 _]].
        -- constructor; [now apply IH1 | assumption].
        -- apply nullable_matches in H1. congruence.
  - split; intros H; inversion H; subst;
      solve [apply MAltL; now apply IH1 | apply MAltR; now apply IH2].
  - split.
    + intros H. apply cat_inv in H as (s1 & s2 & -> & H1 & H2).
      change (a :: s1 ++ s2) with ((a :: s1) ++ s2).
      constructor; [now apply IH1 | assumption].
    + intros H. apply star_cons_inv in H as (s1 & s2 & -> & H1 & H2).
      constructor; [now apply IH1 | assumption].
Qed.

(** [re.match] succeeds exactly when some prefix of the text is a word of
    the pattern. *)
Lemma py_match_prefix s : forall r,
  py_match r s = true <-> exists p q, s = p ++ q /\ matches r p.
Proof.
  induction s as [|a s IH]; intros r; simpl.
  - rewrite orb_false_r, nullable_matches. split.
    + intros H. exists [], []. auto.
    + intros (p & q & E & H). symmetry in E. apply app_eq_nil in E as [-> _]. exact H.
  - rewrite orb_true_iff, nullable_matches, IH. split.
    + intros [H|(p & q & -> & H)].
      * exists [], (a :: s). auto.
      * exists (a :: p), q. split; [reflexivity | now apply deriv_matches].
    + intros (p & q & E & H). destruct p as [|b p]; simpl in E.
      * left. exact H.
      * injection E as <- ->. right. exists p, q. split; [reflexivity | now apply deriv_matches].
Qed.

(** The words of [[^c]*] and of [[^c]+]. *)
Lemma star_notchr c s : matches (Star (NotChr c)) s <-> c ∉ s.
Proof.
  split.
  - intros H. remember (Star (NotChr c)) as r eqn:Er. revert Er.
    induction H as [| | | | | | |r0 s1 s2 H1 _ H2 IH2]; intros Er; try discriminate.
    + apply not_elem_of_nil.
    + injection Er as ->. inversion H1; subst. simpl.
      apply not_elem_of_cons. split; [congruence | now apply IH2].
  - induction s as [|a s IH]; intros H.
    + constructor.
    + apply not_elem_of_cons in H as [Hne Hs].
      change (a :: s) with ([a] ++ s). constructor; [constructor; congruence | now apply IH].
Qed.

Lemma plus_notchr c s : matches (Plus (NotChr c)) s <-> s <> [] /\ c ∉ s.
Proof.
  unfold Plus. split.
  - intros H. apply cat_inv in H as (s1 & s2 & -> & H1 & H2).
    inversion H1; subst. simpl. split; [discriminate|].
    apply not_elem_of_cons. split; [congruence | now apply star_notchr].
  - intros [Hne H]. destruct s as [|a s]; [congruence|].
    apply not_elem_of_cons in H as [Ha Hs].
    change (a :: s) with ([a] ++ s). constructor; [constructor; congruence | now apply star_notchr].
Qed.

End ReFacts.

(** ** Running the monad *)

Ltac run :=
  unfold outcome, after, mbind, mret, M_bind, M_ret, raise, lift, logger_info,
    redis_get, redis_set, redis_exists, redis_delete, send_simple_message,
    draw, try_reraise, emit, with_redis in *;
  cbn [fst snd redis effects entropy negb] in *.

Ltac steps :=
  cbn [fst snd redis effects entropy negb Z.eqb fmap option_fmap option_map loads
       py_in py_encode] in *.

(** ** Validation *)

Lemma chr_inv c s : Re.matches (Re.Chr c) s -> s = [c].
Proof. intros H. inversion H; subst. reflexivity. Qed.

Lemma email_pattern_words p :
  Re.matches email_pattern p <->
  exists l d t,
    p = l ++ at_sign :: d ++ full_stop :: t
    /\ (l <> [] /\ (at_sign ∉ l)) /\ (d <> [] /\ (at_sign ∉ d)) /\ (t <> [] /\ (at_sign ∉ t)).
Proof.
  unfold email_pattern. split.
  - intros H.
    apply ReFacts.cat_inv in H as (l & p1 & -> & Hl & H).
    apply ReFacts.cat_inv in H as (a & p2 & -> & Ha & H).
    apply ReFacts.cat_inv in H as (d & p3 & -> & Hd & H).
    apply ReFacts.cat_inv in H as (f & t & -> & Hf & Ht).
    apply chr_inv in Ha as ->. apply chr_inv in Hf as ->.
    apply ReFacts.plus_notchr in Hl, Hd, Ht.
    exists l, d, t. simpl. auto.
  - intros (l & d & t & -> & Hl & Hd & Ht).
    apply ReFacts.plus_notchr in Hl, Hd, Ht.
    change (l ++ at_sign :: d ++ full_stop :: t)
      with (l ++ [at_sign] ++ d ++ [full_stop] ++ t).
    repeat (constructor; try assumption).
Qed.

Lemma email_pattern_shape email :
  Re.py_match email_pattern email = true <-> email_shape email.
Proof.
  rewrite ReFacts.py_match_prefix. split.
  - intros (p & q & -> & H).
    apply email_pattern_words in H as (l & d & t & -> & Hl & Hd & [Hne Ht]).
    destruct t as [|c t]; [congruence|].
    apply not_elem_of_cons in Ht as [Hc _].
    exists l, d, c, (t ++ q). split.
    + rewrite <- app_assoc. simpl. rewrite <- app_assoc. reflexivity.
    + destruct Hl, Hd. auto 10.
  - intros (l & d & c & rest & -> & Hl & Hl' & Hd & Hd' & Hc).
    exists (l ++ at_sign :: d ++ full_stop :: [c]), rest. split.
    + rewrite <- app_assoc. simpl. rewrite <- app_assoc. reflexivity.
    + apply email_pattern_words. exists l, d, [c].
      repeat split; try assumption; try discriminate.
      apply not_elem_of_cons. split; [congruence | apply not_elem_of_nil].
Qed.

Lemma isalpha_false env s :
  isalpha env s = false <-> s = [] \/ exists c, c ∈ s /\ char_isalpha env c = false.
Proof.
  destruct s as [|a s]; simpl; [tauto|].
  change (char_isalpha env a && forallb (char_isalpha env) s)
    with (forallb (char_isalpha env) (a :: s)).
  split.
  - intros H. right.
    destruct (forallb_forall (char_isalpha env) (a :: s)) as [_ Hall].
    destruct (existsb (fun c => negb (char_isalpha env c)) (a :: s)) eqn:Hex.
    + apply existsb_exists in Hex as (c & Hin & Hc).
      exists c. split; [now apply list_elem_of_In | now apply negb_true_iff].
    + rewrite Hall in H; [discriminate|].
      intros c Hin. destruct (char_isalpha env c) eqn:Hc; [reflexivity|].
      assert (existsb (fun c => negb (char_isalpha env c)) (a :: s) = true); [|congruence].
      apply existsb_exists. exists c. rewrite Hc. auto.
  - intros [H|(c & Hin & Hc)]; [discriminate|].
    destruct (forallb (char_isalpha env) (a :: s)) eqn:Hall; [|reflexivity].
    rewrite forallb_forall in Hall. rewrite Hall in Hc; [discriminate|].
    now apply list_elem_of_In.
Qed.

(** Characters the specification names as rejected: the ASCII digits, the
    underscore and the ASCII white space are not letters, whatever the
    table says outside ASCII. *)
Lemma ascii_not_letters env c :
  (48 <= c <= 57)%N \/ c = 95%N \/ c = 32%N \/ (9 <= c <= 13)%N ->
  char_isalpha env c = false.
Proof.
  intros H. unfold char_isalpha, ascii_letter.
  assert ((c <? 128)%N = true) as -> by (apply N.ltb_lt; lia).
  rewrite orb_false_iff, !andb_false_iff, !N.leb_gt. lia.
Qed.

(** C10. The checks of [validate_registration] run in the order username,
    address, existing user: as soon as the username or the address is
    refused the call fails, with [InvalidRegistrationUsername] whenever the
    username is refused (also when the address is bad or the user exists)
    and with [InvalidRegistrationEmail] otherwise, and it leaves the world
    as it found it: no Redis command was issued. *)
Theorem validate_registration_precedence env w username email :
  isalpha env username = false \/ Re.py_match email_pattern email = false ->
  outcome (validate_registration env username email) w
    = Raise (if isalpha env username then InvalidRegistrationEmail
             else InvalidRegistrationUsername)
  /\ after (validate_registration env username email) w = w.
Proof.
  intros H. unfold outcome, after, validate_registration.
  destruct (isalpha env username); simpl.
  - destruct H as [H|H]; [discriminate|]. rewrite H. simpl. auto.
  - auto.
Qed.

Lemma validate_registration_precedence_witness :
  outcome (validate_registration env0 (lit "r2d2") (lit "nobody")) world0
    = Raise InvalidRegistrationUsername
  /\ after (validate_registration env0 (lit "r2d2") (lit "nobody")) world0 = world0.
Proof.
  apply (validate_registration_precedence env0 world0 (lit "r2d2") (lit "nobody")).
  left. reflexivity.
Defined.

(** The existence read is the third step: with both checks passed it is the
    one command the call issues. *)
Lemma validate_registration_reads env w username email :
  isalpha env username = true ->
  Re.py_match email_pattern email = true ->
  exists rest,
    effects (after (validate_registration env username email) w)
      = effects w ++ RedisGet (_user_id env (PStr username)) :: rest.
Proof.
  intros Hu He. unfold validate_registration. rewrite Hu, He. run.
  destruct (truthy_bytes _); cbn [snd effects]; [rewrite <- app_assoc|]; eauto.
Qed.

(** C7, as the code has it. [validate_registration] fails with
    [InvalidRegistrationUsername] exactly when the username is empty or has
    a character that is not a letter; a username of one letter or more, all
    letters, passes the username check. *)
Theorem validate_registration_username env w username email :
  outcome (validate_registration env username email) w = Raise InvalidRegistrationUsername
  <-> username = [] \/ exists c, c ∈ username /\ char_isalpha env c = false.
Proof.
  rewrite <- isalpha_false. unfold outcome, validate_registration.
  destruct (isalpha env username); simpl; [|tauto].
  split; [|discriminate].
  destruct (Re.py_match email_pattern email); simpl; [|discriminate].
  unfold mbind, M_bind, redis_get; simpl.
  destruct (truthy_bytes _); simpl; discriminate.
Qed.

(** C7, counterexample. The empty username has no character that is not a
    letter, and it is refused. *)
Lemma empty_username_refused :
  Forall (fun c => char_isalpha env0 c = true) []
  /\ outcome (validate_registration env0 [] (lit "a@b.c")) world0
     = Raise InvalidRegistrationUsername.
Proof. split; [constructor | reflexivity]. Qed.

(** C4, as the code has it. [validate_registration] fails with
    [InvalidRegistrationEmail] exactly when the username passed its check
    and the address does not start with: characters other than [@] (one at
    least), an [@], characters other than [@] (one at least), a dot, and a
    character other than [@]. *)
Theorem validate_registration_email env w username email :
  outcome (validate_registration env username email) w = Raise InvalidRegistrationEmail
  <-> isalpha env username = true /\ ~ email_shape email.
Proof.
  rewrite <- email_pattern_shape. unfold outcome, validate_registration.
  destruct (isalpha env username); simpl.
  - destruct (Re.py_match email_pattern email); simpl.
    + split; [|intros [_ H]; congruence].
      unfold mbind, M_bind, redis_get; simpl.
      destruct (truthy_bytes _); simpl; discriminate.
    + split; [|reflexivity]. intros _. split; [reflexivity | discriminate].
  - split; [discriminate | intros [H _]; discriminate].
Qed.

(** ** Reading a user *)

Lemma startswith_refl s : startswith s s = true.
Proof. induction s as [|a s IH]; simpl; [reflexivity|]. now rewrite N.eqb_refl. Qed.

Lemma str_contains_refl s : str_contains s s = true.
Proof. destruct s; simpl; [reflexivity|]. now rewrite N.eqb_refl, startswith_refl. Qed.

Lemma user_record_username u e h t : getitem (user_record u e h t) (lit "username") = Ok u.
Proof. reflexivity. Qed.

Lemma user_record_password u e h t : getitem (user_record u e h t) (lit "password") = Ok h.
Proof. reflexivity. Qed.


(** Destructs the value a [match] of the goal waits for. *)
Ltac split_match :=
  match goal with
  | |- context [match ?x with _ => _ end] => destruct x eqn:?
  end.

(** Reading never writes: [get_user_by_username] and [get_auth_token] leave
    the keyspace as it is, whatever they return. *)
Lemma get_user_by_username_frame env username w :
  redis (after (get_user_by_username env username) w) = redis w.
Proof.
  unfold get_user_by_username. run. repeat (split_match; cbn [snd redis]); reflexivity.
Qed.

Lemma get_auth_token_frame env username password w :
  redis (after (get_auth_token env username password) w) = redis w.
Proof.
  unfold get_auth_token. run.
  pose proof (get_user_by_username_frame env username
                (mkWorld (redis w)
                   (effects w ++ [LogInfo (lit "get auth token username: " ++ username)])
                   (entropy w))) as F.
  unfold after in F. cbn [redis] in F.
  destruct (get_user_by_username env username _) as [[user|e] w']; cbn [snd] in F |- *.
  - repeat (split_match; cbn [snd]); exact F.
  - exact F.
Qed.

(** The record is found under the key of its own username. *)
Lemma get_user_by_username_found env w username ent email h tok :
  redis w !! _user_id env (PStr username) = Some ent ->
  ujson_loads env (payload ent) = Ok (user_record (PStr username) email h tok) ->
  outcome (get_user_by_username env username) w
    = Ok (user_record (PStr username) email h tok).
Proof.
  intros Hk Hl. unfold get_user_by_username. run. rewrite Hk. steps. rewrite Hk. steps.
  rewrite Hl, user_record_username. steps. rewrite str_contains_refl. reflexivity.
Qed.






(** C3, the code at the failing input. The record of [alice] is stored
    under the key of [ali]; the stored username is not the lookup key, and
    [get_user_by_username] returns the record: its test is [username not in
    user['username']], which holds of a stored name only when the key does
    not occur inside it. *)
Theorem get_user_by_username_misfiled :
  getitem alice_record (lit "username") = Ok (PStr alice)
  /\ alice <> lit "ali"
  /\ outcome (get_user_by_username env0 (lit "ali")) world_misfiled = Ok alice_record.
Proof.
  split; [reflexivity|]. split; [discriminate|]. vm_compute. reflexivity.
Qed.

(** What the test of the code accepts: any stored name the key occurs in. *)
Lemma get_user_by_username_substring env w username ent user stored :
  redis w !! _user_id env (PStr username) = Some ent ->
  ujson_loads env (payload ent) = Ok user ->
  getitem user (lit "username") = Ok (PStr stored) ->
  outcome (get_user_by_username env username) w
    = if str_contains stored username then Ok user else Raise InvalidAuthLoginException.
Proof.
  intros Hk Hl Hu. unfold get_user_by_username. run. rewrite Hk. steps. rewrite Hk. steps.
  rewrite Hl, Hu. steps. destruct (str_contains stored username); reflexivity.
Qed.

Lemma spec_email_shape_at email : spec_email_shape email -> at_sign ∈ email.
Proof.
  intros (l & d & t & -> & _). apply elem_of_app. right. apply elem_of_cons. now left.
Qed.

(** C4, counterexample. An address with no [@] at all does not make the
    call fail with [InvalidRegistrationEmail] when the username is refused
    first; and [a@b.@], which has the shape the claim describes (its
    trailing character is the second [@]), is refused. *)
Lemma email_claim_fails :
  (~ spec_email_shape (lit "nobody")
   /\ outcome (validate_registration env0 (lit "r2d2") (lit "nobody")) world0
      = Raise InvalidRegistrationUsername)
  /\ (spec_email_shape (lit "a@b.@")
      /\ outcome (validate_registration env0 alice (lit "a@b.@")) world0
         = Raise InvalidRegistrationEmail).
Proof.
  split; split.
  - intros H%spec_email_shape_at. revert H.
    apply (proj1 (bool_decide_eq_false _)). vm_compute. reflexivity.
  - reflexivity.
  - exists (lit "a"), (lit "b"), (lit "@").
    split; [reflexivity|].
    repeat split; try discriminate;
      apply (proj1 (bool_decide_eq_false _)); vm_compute; reflexivity.
  - vm_compute. reflexivity.
Qed.

(** ** Writing *)

Lemma _hash_password_eq env password encoded w :
  utf8_encode password = Ok encoded ->
  _hash_password env password w
  = (bcrypt_hashpw env encoded (gensalt_at env (entropy w)),
     mkWorld (redis w) (effects w) (S (entropy w))).
Proof.
  intros He. unfold _hash_password. run. rewrite He. reflexivity.
Qed.

(** Hashing touches neither the store nor the trace, whether it succeeds
    or raises. *)
Lemma _hash_password_quiet env password w :
  redis (snd (_hash_password env password w)) = redis w
  /\ effects (snd (_hash_password env password w)) = effects w.
Proof.
  unfold _hash_password. run.
  destruct (utf8_encode password); cbn [snd redis effects]; auto.
Qed.

Lemma _save_registration_eq env username hash_password email w :
  let token := uuid4_at env (entropy w) in
  let registration := ujson_dumps env (registration_record username email hash_password) in
  _save_registration env username hash_password email w
  = (Ok token,
     mkWorld (<[_registration_id token := Entry registration (Some one_day)]> (redis w))
       (effects w ++ [ LogInfo (lit "_save_registration username: " ++ username);
                       RedisSet (_registration_id token) registration (Some one_day) ])
       (S (entropy w))).
Proof.
  unfold _save_registration. run. rewrite <- app_assoc. reflexivity.
Qed.

(** [_save_user] for a username that is a string: the record, then the
    index entry, then the mail with the token. *)
Lemma _save_user_eq env username hash_password email w :
  let token := uuid4_at env (entropy w) in
  let user := ujson_dumps env (user_record (PStr username) email hash_password token) in
  _save_user env (PStr username) hash_password email w
  = (Ok token,
     mkWorld (<[_token_id token := Entry username None]>
                (<[_user_id env (PStr username) := Entry user None]> (redis w)))
       (effects w ++ [ LogInfo (lit "_save_user username: " ++ username);
                       RedisSet (_user_id env (PStr username)) user None;
                       RedisSet (_token_id token) username None;
                       SendMail email token_mail_subject
                         (token_mail_body env (PStr username) token) ])
       (S (entropy w))).
Proof.
  unfold _save_user. run. cbn [redis_value format_arg].
  rewrite <- !app_assoc. reflexivity.
Qed.

Lemma validate_registration_pass env w username email :
  isalpha env username = true ->
  Re.py_match email_pattern email = true ->
  truthy_bytes (payload <$> redis w !! _user_id env (PStr username)) = false ->
  validate_registration env username email w
  = (Ok tt, emit (RedisGet (_user_id env (PStr username))) w).
Proof.
  intros Hu He Hn. unfold validate_registration. rewrite Hu, He. run. rewrite Hn. reflexivity.
Qed.

(** Hashing either raises, leaving store and trace as they were, or
    encodes the password, draws a salt and returns the hash. *)
Lemma _hash_password_cases env password w :
  (exists e w',
      _hash_password env password w = (Raise e, w')
      /\ redis w' = redis w /\ effects w' = effects w)
  \/ (exists encoded hash,
         utf8_encode password = Ok encoded
         /\ bcrypt_hashpw env encoded (gensalt_at env (entropy w)) = Ok hash
         /\ _hash_password env password w
            = (Ok hash, mkWorld (redis w) (effects w) (S (entropy w)))).
Proof.
  unfold _hash_password. run.
  destruct (utf8_encode password) as [encoded|e]; [|left; eauto].
  destruct (bcrypt_hashpw env encoded (gensalt_at env (entropy w))) as [hash|e] eqn:Hh.
  - right. exists encoded, hash. auto.
  - left. eauto.
Qed.

(** The store after a [register] that is not automatic: as before, or with
    the one new registration. *)
Lemma register_pending_store env w username password email auto_hash :
  auto_register env auto_hash = false ->
  redis (after (register env username password email auto_hash) w) = redis w
  \/ (exists hash,
         redis (after (register env username password email auto_hash) w)
         = <[_registration_id (uuid4_at env (S (entropy w))) :=
               Entry (ujson_dumps env (registration_record username email hash))
                 (Some one_day)]> (redis w)).
Proof.
  intros Hauto.
  unfold after, register. run. unfold validate_registration.
  destruct (isalpha env username); cbn [negb]; [|left; reflexivity].
  destruct (Re.py_match email_pattern email); cbn [negb]; [|left; reflexivity].
  run. destruct (truthy_bytes _); [left; reflexivity|].
  run.
  match goal with
  | |- context [_hash_password env password ?W] =>
      destruct (_hash_password_cases env password W)
        as [(e & w' & -> & Hr & _)|(encoded & hash & _ & _ & ->)]
  end.
  { left. exact Hr. }
  rewrite Hauto. run. rewrite _save_registration_eq.
  cbn [redis effects entropy]. right. exists hash.
  destruct (os_environ env (lit "DOMAIN_URL")); reflexivity.
Qed.




(** ** The confirmation path of [register] *)

(** Without automatic registration a call of [register] either stops
    before any mail is sent, or runs to its end: it logs, reads the user
    key, logs, hashes, stores the pending registration for one day and only
    then sends the confirmation link. *)
Lemma register_pending_cases env w username password email auto_hash :
  auto_register env auto_hash = false ->
  (exists d,
      effects (after (register env username password email auto_hash) w) = effects w ++ d
      /\ existsb is_mail d = false)
  \/ (exists encoded hash url,
         utf8_encode password = Ok encoded
         /\ bcrypt_hashpw env encoded (gensalt_at env (entropy w)) = Ok hash
         /\ environ env (lit "DOMAIN_URL") = Some url
         /\ let token := uuid4_at env (S (entropy w)) in
            let registration :=
              ujson_dumps env (registration_record username email hash) in
            register env username password email auto_hash w
            = (Ok (PBool true),
               mkWorld (<[_registration_id token := Entry registration (Some one_day)]> (redis w))
                 (effects w ++
                  [ LogInfo (lit "register username: " ++ username);
                    RedisGet (_user_id env (PStr username));
                    LogInfo (lit "register username: " ++ username ++ lit " ok");
                    LogInfo (lit "_save_registration username: " ++ username);
                    RedisSet (_registration_id token) registration (Some one_day);
                    SendMail (PStr email) confirm_mail_subject (confirm_mail_body url token) ])
                 (S (S (entropy w))))).
Proof.
  intros Hauto.
  unfold after, register. run. unfold validate_registration.
  destruct (isalpha env username); cbn [negb].
  2:{ left. run. eauto. }
  destruct (Re.py_match email_pattern email); cbn [negb].
  2:{ left. run. eauto. }
  run. destruct (truthy_bytes _).
  { left. run. rewrite <- !app_assoc. eauto. }
  run.
  match goal with
  | |- context [_hash_password env password ?W] =>
      destruct (_hash_password_cases env password W)
        as [(e & w' & -> & _ & Hf)|(encoded & hash & Henc & Hh & ->)]
  end.
  { left. cbn [snd effects] in *. rewrite Hf, <- !app_assoc. eauto. }
  cbn [entropy] in Hh.
  rewrite Hauto. run. rewrite _save_registration_eq.
  cbn [redis effects entropy]. unfold os_environ.
  destruct (environ env (lit "DOMAIN_URL")) as [url|] eqn:Hurl.
  - right. exists encoded, hash, url.
    split; [exact Henc|]. split; [exact Hh|]. split; [reflexivity|].
    cbn [snd redis effects entropy]. rewrite <- !app_assoc. reflexivity.
  - left. cbn [snd effects]. rewrite <- !app_assoc. eauto.
Qed.

(** C8. In every execution of [register] that is not automatic, a mail
    that goes out is the last effect of the call and is the confirmation
    link: it goes to the address given, and its body is the link built from
    [DOMAIN_URL] and the registration token drawn. The effect right before
    it is the Redis [set] that stores, under [registration:<token>] and
    with an expiry of 86400 seconds, the serialised record of the username,
    the address and the hash of the password; and the store holds that
    entry, with that expiry, when the call returns. *)
Theorem register_persists_before_notifying
    env w username password email auto_hash pre post to subject body :
  auto_register env auto_hash = false ->
  effects (after (register env username password email auto_hash) w)
    = effects w ++ pre ++ SendMail to subject body :: post ->
  exists encoded hash url before,
    utf8_encode password = Ok encoded
    /\ bcrypt_hashpw env encoded (gensalt_at env (entropy w)) = Ok hash
    /\ environ env (lit "DOMAIN_URL") = Some url
    /\ let token := uuid4_at env (S (entropy w)) in
       let key := lit "registration:" ++ token in
       let registration :=
         ujson_dumps env
           (PDict [ (lit "username", PStr username);
                    (lit "email", PStr email);
                    (lit "password", PStr hash) ]) in
       pre = before ++ [RedisSet key registration (Some 86400)]
       /\ existsb is_mail before = false
       /\ post = []
       /\ to = PStr email
       /\ subject = lit "Welcome to Megachess!!"
       /\ body = lit "<p>Please confirm your email account</p><a href="
                   ++ [34%N] ++ url ++ lit "/confirm_registration?token=" ++ token
                   ++ [34%N] ++ lit ">CONFIRM YOUR REGISTRATION</a>"
       /\ redis (after (register env username password email auto_hash) w) !! key
          = Some (Entry registration (Some 86400)).
Proof.
  intros Hauto E.
  destruct (register_pending_cases env w username password email auto_hash Hauto)
    as [(d & Hd & Hnone)|(encoded & hash & url & Henc & Hh & Hurl & Hrun)].
  - rewrite Hd in E. apply app_inv_head in E. subst d.
    rewrite existsb_app in Hnone. cbn [existsb is_mail] in Hnone.
    rewrite orb_true_r in Hnone. discriminate.
  - cbn zeta in Hrun. unfold after in *. rewrite Hrun in E |- *.
    cbn [snd effects redis] in E |- *.
    apply app_inv_head in E.
    do 5 (destruct pre as [|? pre]; [discriminate | injection E as <- E]).
    destruct pre as [|? pre].
    + injection E as <- <- <- <-.
      exists encoded, hash, url,
        [ LogInfo (lit "register username: " ++ username);
          RedisGet (_user_id env (PStr username));
          LogInfo (lit "register username: " ++ username ++ lit " ok");
          LogInfo (lit "_save_registration username: " ++ username) ].
      repeat (split; [assumption|]). cbn zeta.
      repeat (split; [reflexivity|]).
      apply (lookup_insert_eq (redis w)).
    + injection E as _ E. destruct pre; discriminate.
Qed.

Lemma register_persists_before_notifying_witness :
  exists encoded hash url before,
    utf8_encode (lit "Passw0rd!") = Ok encoded
    /\ Bcrypt.try_hashpw encoded (Bcrypt.gensalt 0) = Ok hash
    /\ environ0 (lit "DOMAIN_URL") = Some url
    /\ take 5 (effects world_pending)
       = before ++ [RedisSet (lit "registration:" ++ uuid0 1)
                      (Ujson.dumps (PDict [ (lit "username", PStr alice);
                                            (lit "email", PStr (lit "alice@example.com"));
                                            (lit "password", PStr hash) ]))
                      (Some 86400)]
    /\ existsb is_mail before = false
    /\ @nil event = []
    /\ PStr (lit "alice@example.com") = PStr (lit "alice@example.com")
    /\ confirm_mail_subject = lit "Welcome to Megachess!!"
    /\ confirm_mail_body (lit "https://megachess.example") (uuid0 1)
       = lit "<p>Please confirm your email account</p><a href="
           ++ [34%N] ++ url ++ lit "/confirm_registration?token=" ++ uuid0 1
           ++ [34%N] ++ lit ">CONFIRM YOUR REGISTRATION</a>"
    /\ redis world_pending !! (lit "registration:" ++ uuid0 1)
       = Some (Entry (Ujson.dumps (PDict [ (lit "username", PStr alice);
                                           (lit "email", PStr (lit "alice@example.com"));
                                           (lit "password", PStr hash) ]))
                 (Some 86400)).
Proof.
  apply (register_persists_before_notifying env0 world0 alice (lit "Passw0rd!")
           (lit "alice@example.com") None
           (take 5 (effects world_pending)) [] (PStr (lit "alice@example.com"))
           confirm_mail_subject
           (confirm_mail_body (lit "https://megachess.example") (uuid0 1)));
    vm_compute; reflexivity.
Defined.

(** ** Confirmation *)

(** The three key spaces do not meet. *)
Lemma registration_id_not_user_id env token username :
  _registration_id token <> _user_id env username.
Proof.
  unfold _registration_id, _user_id. intros H.
  apply (f_equal head) in H. vm_compute in H. discriminate.
Qed.

Lemma registration_id_not_token_id token auth_token :
  _registration_id token <> _token_id auth_token.
Proof.
  unfold _registration_id, _token_id. intros H.
  apply (f_equal head) in H. vm_compute in H. discriminate.
Qed.

(** [_save_user] only adds effects, and writes under no registration key. *)
Lemma _save_user_writes env username hash_password email w token :
  (exists d, effects (after (_save_user env username hash_password email) w) = effects w ++ d)
  /\ redis (after (_save_user env username hash_password email) w) !! _registration_id token
     = redis w !! _registration_id token.
Proof.
  unfold _save_user. run.
  destruct (redis_value env username) as [name|e]; cbn [snd redis effects].
  - split.
    + rewrite <- !app_assoc. eauto.
    + rewrite !lookup_insert_ne; auto using not_eq_sym,
        registration_id_not_user_id, registration_id_not_token_id.
  - split.
    + rewrite <- !app_assoc. eauto.
    + rewrite lookup_insert_ne; auto using not_eq_sym, registration_id_not_user_id.
Qed.

(** A token with no pending registration is refused after the one
    existence check. *)
Lemma confirm_registration_absent env w token :
  redis w !! _registration_id token = None ->
  confirm_registration env token w
  = (Raise InvalidRegistrationToken, emit (RedisExists (_registration_id token)) w).
Proof.
  intros Hk. unfold confirm_registration. run. rewrite Hk. reflexivity.
Qed.

(** A token with a pending registration: existence check, read, delete,
    whatever follows, and the key is gone. *)
Lemma confirm_registration_present env w token ent :
  redis w !! _registration_id token = Some ent ->
  redis (after (confirm_registration env token) w) !! _registration_id token = None
  /\ exists rest,
       effects (after (confirm_registration env token) w)
       = effects w ++ RedisExists (_registration_id token)
                   :: RedisGet (_registration_id token)
                   :: RedisDelete (_registration_id token) :: rest.
Proof.
  intros Hk. unfold confirm_registration. run. rewrite Hk. steps. rewrite Hk. steps.
  destruct (ujson_loads env (payload ent)) as [registration|e]; cbn [snd redis effects].
  2:{ split; [apply lookup_delete_eq | rewrite <- !app_assoc; eauto]. }
  destruct (getitem registration (lit "username")) as [username|e]; cbn [snd redis effects].
  2:{ split; [apply lookup_delete_eq | rewrite <- !app_assoc; eauto]. }
  destruct (getitem registration (lit "password")) as [password|e]; cbn [snd redis effects].
  2:{ split; [apply lookup_delete_eq | rewrite <- !app_assoc; eauto]. }
  destruct (getitem registration (lit "email")) as [email|e]; cbn [snd redis effects].
  2:{ split; [apply lookup_delete_eq | rewrite <- !app_assoc; eauto]. }
  match goal with
  | |- context [_save_user env username password email ?W] =>
      destruct (_save_user_writes env username password email W token) as [(d & Hd) Hr];
      unfold after in Hd, Hr;
      destruct (_save_user env username password email W) as [[a|e] w']
  end; cbn [snd redis effects] in *.
  - rewrite Hr, Hd. split; [apply lookup_delete_eq | rewrite <- !app_assoc; eauto].
  - rewrite Hr, Hd. split; [apply lookup_delete_eq | rewrite <- !app_assoc; eauto].
Qed.

(** C1, as the code has it. Run one after the other, two calls of
    [confirm_registration] with the same token never both pass: after the
    first, whatever its outcome, no pending registration is stored under
    the token and the second fails with [InvalidRegistrationToken]. The
    mechanism is an existence check, followed, when the key is there, by a
    read and a delete whose answer is not looked at. *)
Theorem confirm_registration_single_use env w token :
  let k := _registration_id token in
  let w' := after (confirm_registration env token) w in
  redis w' !! k = None
  /\ outcome (confirm_registration env token) w' = Raise InvalidRegistrationToken
  /\ ((redis w !! k = None /\ effects w' = effects w ++ [RedisExists k])
      \/ (is_Some (redis w !! k)
          /\ exists rest,
               effects w' = effects w ++ RedisExists k :: RedisGet k :: RedisDelete k :: rest)).
Proof.
  intros k w'.
  assert (redis w' !! k = None
          /\ ((redis w !! k = None /\ effects w' = effects w ++ [RedisExists k])
              \/ (is_Some (redis w !! k)
                  /\ exists rest,
                       effects w' = effects w ++ RedisExists k :: RedisGet k
                                                :: RedisDelete k :: rest))) as [Hgone Hfx].
  { subst w' k. destruct (redis w !! _registration_id token) as [ent|] eqn:Hk.
    - destruct (confirm_registration_present env w token ent Hk) as [Hg Hr].
      split; [exact Hg|]. right. split; [eauto | exact Hr].
    - unfold after. rewrite confirm_registration_absent by exact Hk.
      split; [exact Hk|]. left. split; reflexivity. }
  split; [exact Hgone|]. split; [|exact Hfx].
  unfold outcome. subst k. rewrite confirm_registration_absent by exact Hgone. reflexivity.
Qed.

(** C1, counterexample. [alice] confirms her pending registration: the call
    opens with a separate existence check, then reads, then deletes, where
    the mechanism of the claim issues no existence check at all. *)
Lemma confirm_registration_checks_then_deletes :
  take 3 (new_effects (confirm_registration env0 (uuid0 1)) world_pending)
  = [ RedisExists (_registration_id (uuid0 1));
      RedisGet (_registration_id (uuid0 1));
      RedisDelete (_registration_id (uuid0 1)) ]
  /\ existsb is_exists
       (effects (after (confirm_registration_delete_and_check env0 (uuid0 1)) world_pending))
     = false
  /\ outcome (confirm_registration env0 (uuid0 1)) world_pending = Ok tt.
Proof. repeat split; vm_compute; reflexivity. Qed.

(** ** The token index *)

Lemma world_confirmed_twice_store :
  map_to_list (redis world_confirmed_twice)
  = [ (_token_id (uuid0 5), Entry alice None);
      (_token_id (uuid0 4), Entry alice None);
      (_user_id env0 (PStr alice),
       Entry (Ujson.dumps
                (user_record (PStr alice) (PStr (lit "mallory@example.com"))
                   (PStr (Bcrypt.hashpw (lit "other") (Bcrypt.gensalt 2))) (uuid0 5)))
         None) ].
Proof. vm_compute. reflexivity. Qed.

(** C2, the code at the failing input. After the two confirmations the
    store holds one record for [alice], carrying the second auth token, and
    two index entries: the first auth token still resolves to [alice]
    although no user record carries it. Both confirmations succeeded. *)
Theorem token_index_broken_by_second_confirmation :
  outcome (confirm_registration env0 (uuid0 1)) world_registered_twice = Ok tt
  /\ outcome (confirm_registration env0 (uuid0 3)) world_confirmed_once = Ok tt
  /\ outcome (get_username_by_auth_token (uuid0 4)) world_confirmed_twice = Ok alice
  /\ ~ user_with_token env0 (redis world_confirmed_twice) (uuid0 4)
  /\ ~ token_index_exact env0 (redis world_confirmed_twice).
Proof.
  assert (~ user_with_token env0 (redis world_confirmed_twice) (uuid0 4)) as Hno.
  { intros (username & ent & user & Hk & Hl & Hg).
    apply elem_of_map_to_list in Hk. rewrite world_confirmed_twice_store in Hk.
    repeat (apply elem_of_cons in Hk as [Hk|Hk]).
    - apply (f_equal (fun p => head (fst p))) in Hk. vm_compute in Hk. discriminate.
    - apply (f_equal (fun p => head (fst p))) in Hk. vm_compute in Hk. discriminate.
    - apply (f_equal snd) in Hk. cbn [snd] in Hk. subst ent.
      vm_compute in Hl. injection Hl as <-. vm_compute in Hg. discriminate.
    - inversion Hk. }
  split; [vm_compute; reflexivity|]. split; [vm_compute; reflexivity|].
  split; [vm_compute; reflexivity|]. split; [exact Hno|].
  intros Hexact. apply Hno, Hexact. vm_compute. eauto.
Qed.

(** The three parts in a row are [confirm_registration]. *)
Lemma confirm_registration_parts env token w :
  confirm_registration env token w
  = (confirm_check token;;
     registration_string ← confirm_fetch token;
     confirm_finish env token registration_string) w.
Proof.
  unfold confirm_registration, confirm_check, confirm_fetch, confirm_finish. run.
  destruct (redis w !! _registration_id token); reflexivity.
Qed.

(** What the separate existence check allows: with the commands of two
    confirmations of [alice]'s token interleaved, both pass, and two auth
    tokens are issued for the one registration. *)
Lemma confirm_interleaved_both_pass :
  outcome (confirm_interleaved env0 (uuid0 1)) world_pending = Ok (tt, tt)
  /\ fst <$> map_to_list (redis (after (confirm_interleaved env0 (uuid0 1)) world_pending))
     = [ _token_id (uuid0 3); _token_id (uuid0 2); _user_id env0 (PStr alice) ].
Proof. split; vm_compute; reflexivity. Qed.

(** * Further properties of the module *)

(** ** Keys *)

(** X1. The keys of users, of pending registrations and of auth tokens never
    coincide, and each kind of key determines the name it was built from. *)
Theorem key_spaces_disjoint env username username' token token' auth auth' :
  _user_id env (PStr username) <> _registration_id token
  /\ _user_id env (PStr username) <> _token_id auth
  /\ _registration_id token <> _token_id auth
  /\ (_user_id env (PStr username) = _user_id env (PStr username') -> username = username')
  /\ (_registration_id token = _registration_id token' -> token = token')
  /\ (_token_id auth = _token_id auth' -> auth = auth').
Proof.
  repeat split.
  - apply not_eq_sym, registration_id_not_user_id.
  - unfold _user_id, _token_id. intros H.
    apply (f_equal head) in H. vm_compute in H. discriminate.
  - apply registration_id_not_token_id.
  - unfold _user_id. cbn [format_arg]. apply app_inv_head.
  - unfold _registration_id. apply app_inv_head.
  - unfold _token_id. apply app_inv_head.
Qed.

(** ** Lookups *)

Lemma get_username_by_auth_token_frame token w :
  redis (after (get_username_by_auth_token token) w) = redis w.
Proof.
  unfold get_username_by_auth_token. run. repeat (split_match; cbn [snd redis]); reflexivity.
Qed.

Lemma validate_registration_frame env username email w :
  redis (after (validate_registration env username email) w) = redis w.
Proof.
  unfold validate_registration. run. repeat (split_match; cbn [snd redis]); reflexivity.
Qed.

(** X2. The four lookups issue no write: whatever they are given and whatever
    they answer, the store is the same after as before. *)
Theorem lookups_keep_store env w username password email token :
  redis (after (validate_registration env username email) w) = redis w
  /\ redis (after (get_user_by_username env username) w) = redis w
  /\ redis (after (get_auth_token env username password) w) = redis w
  /\ redis (after (get_username_by_auth_token token) w) = redis w.
Proof.
  auto using validate_registration_frame, get_user_by_username_frame,
    get_auth_token_frame, get_username_by_auth_token_frame.
Qed.

(** X3. The token [_save_user] returns for a username that is a string is
    the fresh draw, and [get_username_by_auth_token] maps it back to the
    username right after. *)
Theorem saved_user_token_resolves env w username hash_password email :
  outcome (_save_user env (PStr username) hash_password email) w
    = Ok (uuid4_at env (entropy w))
  /\ outcome (get_username_by_auth_token (uuid4_at env (entropy w)))
       (after (_save_user env (PStr username) hash_password email) w)
     = Ok username.
Proof.
  unfold outcome, after. rewrite _save_user_eq. cbn [fst snd]. split; [reflexivity|].
  unfold get_username_by_auth_token. run. rewrite lookup_insert_eq. steps.
  rewrite lookup_insert_eq. reflexivity.
Qed.

(** A token with no index entry is refused, and only then. *)
Theorem get_username_by_auth_token_refusal token w :
  outcome (get_username_by_auth_token token) w = Raise InvalidAuthTokenException
  <-> redis w !! _token_id token = None.
Proof.
  unfold get_username_by_auth_token. run.
  destruct (redis w !! _token_id token) as [ent|] eqn:Hk; steps.
  - rewrite Hk. cbn. split; discriminate.
  - split; reflexivity.
Qed.



(** X5. An unknown username fails with the exception a wrong password gives,
    [InvalidAuthLoginException], after the existence check alone: the
    record is not read. *)
Theorem get_auth_token_unknown_user env w username password :
  redis w !! _user_id env (PStr username) = None ->
  get_auth_token env username password w
  = (Raise InvalidAuthLoginException,
     mkWorld (redis w)
       (effects w ++ [ LogInfo (lit "get auth token username: " ++ username);
                       RedisExists (_user_id env (PStr username)) ])
       (entropy w)).
Proof.
  intros Hk. unfold get_auth_token, get_user_by_username. run. rewrite Hk. steps.
  rewrite <- app_assoc. reflexivity.
Qed.

Lemma get_auth_token_unknown_user_witness :
  get_auth_token env0 (lit "bob") (lit "pw") world_alice
  = (Raise InvalidAuthLoginException,
     mkWorld (redis world_alice)
       (effects world_alice ++ [ LogInfo (lit "get auth token username: " ++ lit "bob");
                                 RedisExists (_user_id env0 (PStr (lit "bob"))) ])
       (entropy world_alice)).
Proof.
  apply (get_auth_token_unknown_user env0 world_alice (lit "bob") (lit "pw")).
  vm_compute. reflexivity.
Defined.

(** ** The consistency test of [get_user_by_username] *)

Lemma startswith_prefix p : forall s, startswith s p = true <-> exists b, s = p ++ b.
Proof.
  induction p as [|a p IH]; intros s.
  - destruct s; simpl; split; eauto.
  - destruct s as [|c s]; simpl.
    + split; [discriminate | intros (b & H); discriminate].
    + rewrite andb_true_iff, N.eqb_eq, IH. split.
      * intros (-> & b & ->). exists b. reflexivity.
      * intros (b & H). injection H as -> ->. eauto.
Qed.

Lemma str_contains_occurs p s : str_contains s p = true <-> exists a b, s = a ++ p ++ b.
Proof.
  induction s as [|c s IH]; cbn [str_contains].
  - rewrite orb_false_r, startswith_prefix. split.
    + intros (b & H). exists [], b. exact H.
    + intros (a & b & H). symmetry in H. apply app_eq_nil in H as (-> & H).
      exists b. symmetry. exact H.
  - rewrite orb_true_iff, startswith_prefix, IH. split.
    + intros [(b & H)|(a & b & ->)].
      * exists [], b. exact H.
      * exists (c :: a), b. reflexivity.
    + intros (a & b & H). destruct a as [|c' a]; simpl in H.
      * left. eauto.
      * injection H as -> ->. right. eauto.
Qed.

(** X6. With a record stored under the key of [username] whose own username
    field is the string [stored], [get_user_by_username] returns the record
    when [username] occurs somewhere inside [stored], and fails with
    [InvalidAuthLoginException] when it does not. *)
Theorem get_user_by_username_occurrence env w username ent user stored :
  redis w !! _user_id env (PStr username) = Some ent ->
  ujson_loads env (payload ent) = Ok user ->
  getitem user (lit "username") = Ok (PStr stored) ->
  ((exists a b, stored = a ++ username ++ b)
   /\ outcome (get_user_by_username env username) w = Ok user)
  \/ (~ (exists a b, stored = a ++ username ++ b)
      /\ outcome (get_user_by_username env username) w = Raise InvalidAuthLoginException).
Proof.
  intros Hk Hl Hu.
  rewrite (get_user_by_username_substring env w username ent user stored Hk Hl Hu).
  rewrite <- str_contains_occurs.
  destruct (str_contains stored username); [left | right]; split; auto; discriminate.
Qed.

Lemma get_user_by_username_occurrence_witness :
  ((exists a b, alice = a ++ lit "lic" ++ b)
   /\ outcome (get_user_by_username env0 (lit "lic"))
        (world_of [ (lit "user:lic", Entry (Ujson.dumps alice_record) None) ])
      = Ok alice_record)
  \/ (~ (exists a b, alice = a ++ lit "lic" ++ b)
      /\ outcome (get_user_by_username env0 (lit "lic"))
           (world_of [ (lit "user:lic", Entry (Ujson.dumps alice_record) None) ])
         = Raise InvalidAuthLoginException).
Proof.
  apply (get_user_by_username_occurrence env0
           (world_of [ (lit "user:lic", Entry (Ujson.dumps alice_record) None) ])
           (lit "lic") (Entry (Ujson.dumps alice_record) None) alice_record alice);
    vm_compute; reflexivity.
Defined.

(** ** More on validation *)

(** The four ways [validate_registration] ends, in the order it tries
    them. *)
Lemma validate_registration_outcome env w username email :
  outcome (validate_registration env username email) w
  = if negb (isalpha env username) then Raise InvalidRegistrationUsername
    else if negb (Re.py_match email_pattern email) then Raise InvalidRegistrationEmail
    else if truthy_bytes (payload <$> redis w !! _user_id env (PStr username))
         then Raise UserAlreadyExistsException
         else Ok tt.
Proof.
  unfold validate_registration. run.
  repeat (split_match; cbn [fst negb] in * ); try reflexivity; try discriminate.
Qed.

Lemma email_shape_extends email extra : email_shape email -> email_shape (email ++ extra).
Proof.
  intros (l & d & c & rest & -> & H). exists l, d, c, (rest ++ extra).
  split; [|exact H].
  rewrite <- app_assoc. simpl. rewrite <- app_assoc. reflexivity.
Qed.

(** X7. The address is matched from its start only: whatever is appended to
    an address that passes the address check passes it too. *)
Theorem validate_registration_email_extends env w username email extra :
  outcome (validate_registration env username email) w <> Raise InvalidRegistrationEmail ->
  outcome (validate_registration env username (email ++ extra)) w
    <> Raise InvalidRegistrationEmail.
Proof.
  rewrite !validate_registration_outcome.
  destruct (isalpha env username); cbn [negb]; [|discriminate].
  destruct (Re.py_match email_pattern email) eqn:He; cbn [negb]; [|congruence].
  intros _. apply email_pattern_shape in He.
  apply (email_shape_extends _ extra), email_pattern_shape in He. rewrite He. cbn [negb].
  destruct (truthy_bytes _); discriminate.
Qed.

Lemma validate_registration_email_extends_witness :
  outcome (validate_registration env0 alice (lit "a@b.c" ++ lit "@@ not an address")) world0
    <> Raise InvalidRegistrationEmail.
Proof.
  apply (validate_registration_email_extends env0 world0 alice (lit "a@b.c")
           (lit "@@ not an address")).
  vm_compute. discriminate.
Defined.

Lemma first_at_unique l : forall l' r r',
  (at_sign ∉ l) -> (at_sign ∉ l') ->
  l ++ at_sign :: r = l' ++ at_sign :: r' -> l = l' /\ r = r'.
Proof.
  induction l as [|a l IH]; intros l' r r' Hl Hl' E; destruct l' as [|a' l']; simpl in E.
  - injection E as ->. auto.
  - injection E as <- _. exfalso. apply Hl'. apply elem_of_cons. now left.
  - injection E as -> _. exfalso. apply Hl. apply elem_of_cons. now left.
  - injection E as -> E.
    apply not_elem_of_cons in Hl as [_ Hl]. apply not_elem_of_cons in Hl' as [_ Hl'].
    destruct (IH l' r r' Hl Hl' E) as [-> ->]. auto.
Qed.

(** X8. What the address check demands: with a username that passed, an
    address is refused with [InvalidRegistrationEmail] when it has no [@],
    when it starts with [@], or when no dot follows its first [@]. *)
Theorem validate_registration_email_requirements env w username email :
  isalpha env username = true ->
  (at_sign ∉ email)
  \/ head email = Some at_sign
  \/ (exists l r, email = l ++ at_sign :: r /\ (at_sign ∉ l) /\ (full_stop ∉ r)) ->
  outcome (validate_registration env username email) w = Raise InvalidRegistrationEmail.
Proof.
  intros Hu H. rewrite validate_registration_outcome, Hu. cbn [negb].
  destruct (Re.py_match email_pattern email) eqn:He; [|reflexivity].
  exfalso. apply email_pattern_shape in He as (l & d & c & rest & -> & Hl & Hl' & Hd & Hd' & Hc).
  destruct H as [H|[H|(l0 & r & E & Hl0 & Hr)]].
  - apply H. apply elem_of_app. right. apply elem_of_cons. now left.
  - destruct l as [|a l]; [congruence|]. simpl in H. injection H as ->.
    apply Hl'. apply elem_of_cons. now left.
  - destruct (first_at_unique l l0 _ _ Hl' Hl0 E) as [_ <-].
    apply Hr. apply elem_of_app. right. apply elem_of_cons. now left.
Qed.

Lemma validate_registration_email_requirements_witness :
  outcome (validate_registration env0 alice (lit "first.last@localhost")) world0
    = Raise InvalidRegistrationEmail.
Proof.
  apply (validate_registration_email_requirements env0 world0 alice (lit "first.last@localhost")).
  - reflexivity.
  - right. right. exists (lit "first.last"), (lit "localhost").
    split; [reflexivity|].
    split; apply (proj1 (bool_decide_eq_false _)); vm_compute; reflexivity.
Defined.

(** X9. A username with an ASCII digit, an underscore or ASCII white space in
    it is refused with [InvalidRegistrationUsername], whatever the address
    and the store are. *)
Theorem validate_registration_rejects_ascii env w username email c :
  c ∈ username ->
  (48 <= c <= 57)%N \/ c = 95%N \/ c = 32%N \/ (9 <= c <= 13)%N ->
  outcome (validate_registration env username email) w = Raise InvalidRegistrationUsername.
Proof.
  intros Hin Hc. rewrite validate_registration_outcome.
  assert (isalpha env username = false) as ->; [|reflexivity].
  apply isalpha_false. right. exists c. split; [exact Hin | now apply ascii_not_letters].
Qed.

Lemma validate_registration_rejects_ascii_witness :
  outcome (validate_registration env0 (lit "alice_smith") (lit "a@b.c")) world0
    = Raise InvalidRegistrationUsername.
Proof.
  apply (validate_registration_rejects_ascii env0 world0 (lit "alice_smith") (lit "a@b.c") 95%N).
  - apply (bool_decide_unpack _). vm_compute. exact I.
  - right. left. reflexivity.
Defined.

(** X10. A username made of ASCII letters, one at least, passes the username
    check whatever the table of letters outside ASCII says. *)
Theorem validate_registration_accepts_ascii_letters env w username email :
  username <> [] ->
  Forall (fun c => ascii_letter c = true) username ->
  outcome (validate_registration env username email) w <> Raise InvalidRegistrationUsername.
Proof.
  intros Hne Hall. rewrite validate_registration_outcome.
  assert (isalpha env username = true) as ->.
  { destruct username as [|a u]; [congruence|]. unfold isalpha.
    apply forallb_forall. intros c Hin. rewrite Forall_forall in Hall.
    apply list_elem_of_In, Hall in Hin. unfold char_isalpha.
    destruct (c <? 128)%N eqn:Hlt; [exact Hin|].
    apply N.ltb_ge in Hlt. unfold ascii_letter in Hin.
    rewrite orb_true_iff, !andb_true_iff, !N.leb_le in Hin. lia. }
  cbn [negb]. repeat (split_match; try discriminate).
Qed.

Lemma validate_registration_accepts_ascii_letters_witness :
  outcome (validate_registration env0 alice (lit "a@b.c")) world0
    <> Raise InvalidRegistrationUsername.
Proof.
  apply (validate_registration_accepts_ascii_letters env0 world0 alice (lit "a@b.c")).
  - discriminate.
  - apply (bool_decide_unpack _). vm_compute. exact I.
Defined.

(** ** More on [register] *)

(** The run of [register] that stores a pending registration and sends the
    link. *)
Lemma register_pending_eq env w username password email auto_hash url encoded hash :
  isalpha env username = true ->
  Re.py_match email_pattern email = true ->
  truthy_bytes (payload <$> redis w !! _user_id env (PStr username)) = false ->
  utf8_encode password = Ok encoded ->
  bcrypt_hashpw env encoded (gensalt_at env (entropy w)) = Ok hash ->
  auto_register env auto_hash = false ->
  environ env (lit "DOMAIN_URL") = Some url ->
  let token := uuid4_at env (S (entropy w)) in
  let registration := ujson_dumps env (registration_record username email hash) in
  register env username password email auto_hash w
  = (Ok (PBool true),
     mkWorld (<[_registration_id token := Entry registration (Some one_day)]> (redis w))
       (effects w ++
        [ LogInfo (lit "register username: " ++ username);
          RedisGet (_user_id env (PStr username));
          LogInfo (lit "register username: " ++ username ++ lit " ok");
          LogInfo (lit "_save_registration username: " ++ username);
          RedisSet (_registration_id token) registration (Some one_day);
          SendMail (PStr email) confirm_mail_subject (confirm_mail_body url token) ])
       (S (S (entropy w)))).
Proof.
  intros Hu He Hn Henc Hhash Hauto Hurl token registration.
  unfold register. run.
  rewrite validate_registration_pass by (cbn [redis]; assumption).
  run. rewrite (_hash_password_eq env password encoded) by assumption.
  cbn [entropy]. rewrite Hhash, Hauto. run. rewrite _save_registration_eq.
  cbn [redis effects entropy]. unfold os_environ. rewrite Hurl.
  cbn [snd redis effects entropy]. rewrite <- !app_assoc. reflexivity.
Qed.


(** X11. A [register] that is not automatic changes at most one key of the
    store, the key of the registration token it draws. *)
Theorem register_pending_touches_one_key env w username password email auto_hash k :
  auto_register env auto_hash = false ->
  k <> _registration_id (uuid4_at env (S (entropy w))) ->
  redis (after (register env username password email auto_hash) w) !! k = redis w !! k.
Proof.
  intros Hauto Hk.
  destruct (register_pending_store env w username password email auto_hash Hauto)
    as [-> | (hash & ->)].
  - reflexivity.
  - apply lookup_insert_ne. auto.
Qed.

Lemma register_pending_touches_one_key_witness :
  redis (after (register env0 (lit "bob") (lit "pw") (lit "b@e.com") (Some (lit "guess")))
           world_alice) !! lit "user:alice"
  = redis world_alice !! lit "user:alice".
Proof.
  apply (register_pending_touches_one_key env0 world_alice (lit "bob") (lit "pw")
           (lit "b@e.com") (Some (lit "guess")) (lit "user:alice")).
  - reflexivity.
  - vm_compute. discriminate.
Defined.

(** X12. With no [AUTO_REGISTER_TOKEN] in the environment no [auto_hash] opens
    the automatic path: whatever the caller sends, [register] leaves every
    user record and every auth token of the store as they were. *)
Theorem register_without_secret env w username password email auto_hash :
  environ env (lit "AUTO_REGISTER_TOKEN") = None ->
  forall name token,
    redis (after (register env username password email auto_hash) w) !! _user_id env name
      = redis w !! _user_id env name
    /\ redis (after (register env username password email auto_hash) w) !! _token_id token
       = redis w !! _token_id token.
Proof.
  intros Henv name token.
  assert (auto_register env auto_hash = false) as Hauto.
  { unfold auto_register, os_getenv. destruct auto_hash as [[|c h]|]; try reflexivity.
    rewrite Henv. now apply bool_decide_eq_false. }
  destruct (register_pending_store env w username password email auto_hash Hauto)
    as [-> | (hash & ->)].
  - auto.
  - split; apply lookup_insert_ne.
    + apply registration_id_not_user_id.
    + apply registration_id_not_token_id.
Qed.

Lemma register_without_secret_witness :
  redis (after (register env_no_secret (lit "bob") (lit "pw") (lit "b@e.com") None)
           world_alice) !! _user_id env_no_secret (PStr alice)
    = redis world_alice !! _user_id env_no_secret (PStr alice)
  /\ redis (after (register env_no_secret (lit "bob") (lit "pw") (lit "b@e.com") None)
              world_alice) !! _token_id (uuid0 1)
     = redis world_alice !! _token_id (uuid0 1).
Proof.
  apply (register_without_secret env_no_secret world_alice (lit "bob") (lit "pw")
           (lit "b@e.com") None).
  reflexivity.
Defined.

(** X13. A username whose key holds a value that is not empty cannot be
    registered, with or without the secret: [register] fails with
    [UserAlreadyExistsException] after the one read, writes nothing, hashes
    nothing and sends nothing. *)
Theorem register_existing_user env w username password email auto_hash :
  isalpha env username = true ->
  Re.py_match email_pattern email = true ->
  truthy_bytes (payload <$> redis w !! _user_id env (PStr username)) = true ->
  register env username password email auto_hash w
  = (Raise UserAlreadyExistsException,
     mkWorld (redis w)
       (effects w ++
        [ LogInfo (lit "register username: " ++ username);
          RedisGet (_user_id env (PStr username));
          LogInfo (lit "register username: " ++ username ++ lit " UserAlreadyExistsException") ])
       (entropy w)).
Proof.
  intros Hu He Hex. unfold register, validate_registration. run.
  rewrite Hu, He. run. rewrite Hex. run. rewrite <- !app_assoc. reflexivity.
Qed.

Lemma register_existing_user_witness :
  register env0 alice (lit "pw") (lit "a@b.c") (Some (lit "s3cret")) world_alice
  = (Raise UserAlreadyExistsException,
     mkWorld (redis world_alice)
       (effects world_alice ++
        [ LogInfo (lit "register username: " ++ alice);
          RedisGet (_user_id env0 (PStr alice));
          LogInfo (lit "register username: " ++ alice ++ lit " UserAlreadyExistsException") ])
       (entropy world_alice)).
Proof.
  apply (register_existing_user env0 world_alice alice (lit "pw") (lit "a@b.c")
           (Some (lit "s3cret"))); vm_compute; reflexivity.
Defined.

(** X14. An empty value under the key of a username does not count as a user:
    the test is the truth value of what [get] returns, and [register], with
    a password bcrypt hashes, goes on as for a free username. *)
Theorem register_over_empty_value
    env w username password email auto_hash url ex encoded hash :
  isalpha env username = true ->
  Re.py_match email_pattern email = true ->
  redis w !! _user_id env (PStr username) = Some (Entry [] ex) ->
  utf8_encode password = Ok encoded ->
  bcrypt_hashpw env encoded (gensalt_at env (entropy w)) = Ok hash ->
  auto_register env auto_hash = false ->
  environ env (lit "DOMAIN_URL") = Some url ->
  outcome (register env username password email auto_hash) w = Ok (PBool true).
Proof.
  intros Hu He Hk Henc Hhash Hauto Hurl. unfold outcome.
  rewrite (register_pending_eq env w username password email auto_hash url encoded hash);
    try assumption; [reflexivity|].
  rewrite Hk. reflexivity.
Qed.

Lemma register_over_empty_value_witness :
  outcome (register env0 alice (lit "pw") (lit "a@b.c") None)
    (world_of [ (lit "user:alice", Entry [] None) ])
  = Ok (PBool true).
Proof.
  apply (register_over_empty_value env0 (world_of [ (lit "user:alice", Entry [] None) ])
           alice (lit "pw") (lit "a@b.c") None (lit "https://megachess.example") None
           (lit "pw") (Bcrypt.hashpw (lit "pw") (Bcrypt.gensalt 0)));
    vm_compute; reflexivity.
Defined.

(** X15. With no [DOMAIN_URL] in the environment a valid [register] that is not
    automatic, with a password bcrypt hashes, fails with [KeyError] after
    it stored the pending registration: the registration stays in the
    store and no mail is sent. *)
Theorem register_without_domain_url env w username password email auto_hash encoded hash :
  isalpha env username = true ->
  Re.py_match email_pattern email = true ->
  truthy_bytes (payload <$> redis w !! _user_id env (PStr username)) = false ->
  utf8_encode password = Ok encoded ->
  bcrypt_hashpw env encoded (gensalt_at env (entropy w)) = Ok hash ->
  auto_register env auto_hash = false ->
  environ env (lit "DOMAIN_URL") = None ->
  let token := uuid4_at env (S (entropy w)) in
  let registration := ujson_dumps env (registration_record username email hash) in
  register env username password email auto_hash w
  = (Raise (KeyError (lit "DOMAIN_URL")),
     mkWorld (<[_registration_id token := Entry registration (Some one_day)]> (redis w))
       (effects w ++
        [ LogInfo (lit "register username: " ++ username);
          RedisGet (_user_id env (PStr username));
          LogInfo (lit "register username: " ++ username ++ lit " ok");
          LogInfo (lit "_save_registration username: " ++ username);
          RedisSet (_registration_id token) registration (Some one_day) ])
       (S (S (entropy w)))).
Proof.
  intros Hu He Hn Henc Hhash Hauto Hurl token registration.
  unfold register. run.
  rewrite validate_registration_pass by (cbn [redis]; assumption).
  run. rewrite (_hash_password_eq env password encoded) by assumption.
  cbn [entropy]. rewrite Hhash, Hauto. run. rewrite _save_registration_eq.
  cbn [redis effects entropy]. unfold os_environ. rewrite Hurl.
  cbn [snd redis effects entropy]. rewrite <- !app_assoc. reflexivity.
Qed.

Lemma register_without_domain_url_witness :
  outcome (register env_no_domain alice (lit "pw") (lit "a@b.c") None) world0
    = Raise (KeyError (lit "DOMAIN_URL"))
  /\ is_Some (redis (after (register env_no_domain alice (lit "pw") (lit "a@b.c") None) world0)
                !! _registration_id (uuid0 1)).
Proof.
  unfold outcome, after.
  rewrite (register_without_domain_url env_no_domain world0 alice (lit "pw") (lit "a@b.c") None
             (lit "pw") (Bcrypt.hashpw (lit "pw") (Bcrypt.gensalt 0)));
    try (vm_compute; reflexivity).
  split; [reflexivity|]. cbn [snd redis]. rewrite lookup_insert_eq. eauto.
Defined.

(** ** More on [confirm_registration] and [_save_user] *)

(** The run of [confirm_registration] on a pending registration the codec
    reads back. *)
Lemma confirm_registration_eq env w token ent username email hash :
  redis w !! _registration_id token = Some ent ->
  ujson_loads env (payload ent) = Ok (registration_record username email hash) ->
  let auth_token := uuid4_at env (entropy w) in
  let user := ujson_dumps env (user_record (PStr username) (PStr email) (PStr hash) auth_token) in
  confirm_registration env token w
  = (Ok tt,
     mkWorld (<[_token_id auth_token := Entry username None]>
                (<[_user_id env (PStr username) := Entry user None]>
                   (delete (_registration_id token) (redis w))))
       (effects w ++
        [ RedisExists (_registration_id token);
          RedisGet (_registration_id token);
          RedisDelete (_registration_id token);
          LogInfo (lit "_save_user username: " ++ username);
          RedisSet (_user_id env (PStr username)) user None;
          RedisSet (_token_id auth_token) username None;
          SendMail (PStr email) token_mail_subject
            (token_mail_body env (PStr username) auth_token) ])
       (S (entropy w))).
Proof.
  intros Hk Hl auth_token user.
  unfold confirm_registration. run. rewrite Hk. steps. rewrite Hk. steps. rewrite Hl.
  change (getitem (registration_record username email hash) (lit "username"))
    with (@Ok pyval (PStr username)).
  change (getitem (registration_record username email hash) (lit "password"))
    with (@Ok pyval (PStr hash)).
  change (getitem (registration_record username email hash) (lit "email"))
    with (@Ok pyval (PStr email)).
  cbn iota beta. rewrite _save_user_eq. cbn [redis effects entropy].
  rewrite <- !app_assoc. reflexivity.
Qed.

(** X16. Confirming a pending registration the codec reads back moves it into
    the store as a user: the registration key is gone, the user record
    carries the fields of the registration and a fresh token, the token is
    indexed, neither entry has an expiry, and the mail with the token goes
    to the address of the registration. *)
Theorem confirm_registration_creates_user env w token ent username email hash :
  redis w !! _registration_id token = Some ent ->
  ujson_loads env (payload ent) = Ok (registration_record username email hash) ->
  let auth_token := uuid4_at env (entropy w) in
  let user := ujson_dumps env (user_record (PStr username) (PStr email) (PStr hash) auth_token) in
  let w' := after (confirm_registration env token) w in
  outcome (confirm_registration env token) w = Ok tt
  /\ redis w' !! _registration_id token = None
  /\ redis w' !! _user_id env (PStr username) = Some (Entry user None)
  /\ redis w' !! _token_id auth_token = Some (Entry username None)
  /\ filter is_mail (new_effects (confirm_registration env token) w)
     = [ SendMail (PStr email) token_mail_subject
           (token_mail_body env (PStr username) auth_token) ].
Proof.
  intros Hk Hl auth_token user w'. subst w'. unfold new_effects, outcome, after.
  rewrite (confirm_registration_eq env w token ent username email hash Hk Hl).
  cbn [fst snd redis effects]. split; [reflexivity|]. split; [|split; [|split]].
  - rewrite !lookup_insert_ne
      by auto using not_eq_sym, registration_id_not_user_id, registration_id_not_token_id.
    apply lookup_delete_eq.
  - rewrite lookup_insert_ne; [apply lookup_insert_eq|].
    unfold _token_id, _user_id. intros H.
    apply (f_equal head) in H. vm_compute in H. discriminate.
  - apply lookup_insert_eq.
  - rewrite drop_app_length. reflexivity.
Qed.

Lemma confirm_registration_creates_user_witness :
  outcome (confirm_registration env0 (uuid0 1)) world_pending = Ok tt
  /\ redis (after (confirm_registration env0 (uuid0 1)) world_pending)
       !! _token_id (uuid0 2) = Some (Entry alice None).
Proof.
  destruct (confirm_registration_creates_user env0 world_pending (uuid0 1)
              (Entry (Ujson.dumps (registration_record alice (lit "alice@example.com")
                                     (Bcrypt.hashpw (lit "Passw0rd!") (Bcrypt.gensalt 0))))
                 (Some one_day))
              alice (lit "alice@example.com")
              (Bcrypt.hashpw (lit "Passw0rd!") (Bcrypt.gensalt 0)))
    as (Ho & _ & _ & Ht & _); try (vm_compute; reflexivity).
  split; [exact Ho | exact Ht].
Defined.

(** X17. A pending registration the codec cannot read is used up all the same:
    the delete comes before the decoding, so [confirm_registration] fails
    with the error of the codec, the registration key is gone, and no user
    is written and no mail sent. *)
Theorem confirm_registration_consumes_unreadable env w token ent e :
  redis w !! _registration_id token = Some ent ->
  ujson_loads env (payload ent) = Raise e ->
  confirm_registration env token w
  = (Raise e,
     mkWorld (delete (_registration_id token) (redis w))
       (effects w ++
        [ RedisExists (_registration_id token);
          RedisGet (_registration_id token);
          RedisDelete (_registration_id token) ])
       (entropy w)).
Proof.
  intros Hk Hl.
  unfold confirm_registration. run. rewrite Hk. steps. rewrite Hk. steps. rewrite Hl.
  rewrite <- !app_assoc. reflexivity.
Qed.

Lemma confirm_registration_consumes_unreadable_witness :
  confirm_registration env0 (lit "t0") world_garbled
  = (Raise ValueError,
     mkWorld (delete (_registration_id (lit "t0")) (redis world_garbled))
       (effects world_garbled ++
        [ RedisExists (_registration_id (lit "t0"));
          RedisGet (_registration_id (lit "t0"));
          RedisDelete (_registration_id (lit "t0")) ])
       (entropy world_garbled)).
Proof.
  apply (confirm_registration_consumes_unreadable env0 world_garbled (lit "t0")
           (Entry (lit "not json") (Some one_day)) ValueError); vm_compute; reflexivity.
Defined.

(** X18. [_save_user] does not undo its first write: when redis-py refuses the
    username as a value, the user record is in the store, the index entry
    is not, no mail is sent, and the error is logged and raised again. *)
Theorem save_user_partial_write env w username hash_password email e :
  redis_value env username = Raise e ->
  let auth_token := uuid4_at env (entropy w) in
  let user := ujson_dumps env (user_record username email hash_password auth_token) in
  _save_user env username hash_password email w
  = (Raise e,
     mkWorld (<[_user_id env username := Entry user None]> (redis w))
       (effects w ++
        [ LogInfo (lit "_save_user username: " ++ format_arg env username);
          RedisSet (_user_id env username) user None;
          LogInfo (lit "_save_user username: " ++ format_arg env username ++ lit " Exception") ])
       (S (entropy w))).
Proof.
  intros He auth_token user. unfold _save_user. run. rewrite He.
  cbn [redis effects entropy]. rewrite <- !app_assoc. reflexivity.
Qed.

Lemma _save_user_partial_write_witness :
  outcome (_save_user env0 PNone (PStr (lit "h")) (PStr (lit "a@b.c"))) world0 = Raise DataError
  /\ is_Some (redis (after (_save_user env0 PNone (PStr (lit "h")) (PStr (lit "a@b.c"))) world0)
                !! _user_id env0 PNone)
  /\ redis (after (_save_user env0 PNone (PStr (lit "h")) (PStr (lit "a@b.c"))) world0)
       !! _token_id (uuid0 0) = None.
Proof.
  unfold outcome, after.
  rewrite (save_user_partial_write env0 world0 PNone (PStr (lit "h")) (PStr (lit "a@b.c"))
             DataError); [|reflexivity].
  cbn [fst snd redis]. split; [reflexivity|]. split.
  - rewrite lookup_insert_eq. eauto.
  - vm_compute. reflexivity.
Defined.

(** X19. A later user does not disturb the token of an earlier one: after two
    calls of [_save_user] whose draws differ, the first token still maps to
    the first username. *)
Theorem second_user_keeps_first_token env w username hash email username' hash' email' :
  uuid4_at env (entropy w) <> uuid4_at env (S (entropy w)) ->
  let w1 := after (_save_user env (PStr username) hash email) w in
  let w2 := after (_save_user env (PStr username') hash' email') w1 in
  outcome (get_username_by_auth_token (uuid4_at env (entropy w))) w2 = Ok username.
Proof.
  intros Hfresh w1 w2. subst w1 w2. unfold after. rewrite _save_user_eq. cbn [snd].
  rewrite _save_user_eq. cbn [snd redis entropy].
  assert (_token_id (uuid4_at env (entropy w)) <> _token_id (uuid4_at env (S (entropy w))))
    as Htok.
  { unfold _token_id. intros H. apply app_inv_head in H. congruence. }
  assert (_token_id (uuid4_at env (entropy w)) <> _user_id env (PStr username')) as Huser.
  { unfold _token_id, _user_id. intros H.
    apply (f_equal head) in H. vm_compute in H. discriminate. }
  unfold outcome, get_username_by_auth_token. run.
  rewrite !lookup_insert_ne, lookup_insert_eq by auto.
  steps. rewrite !lookup_insert_ne, lookup_insert_eq by auto. reflexivity.
Qed.

Lemma second_user_keeps_first_token_witness :
  outcome (get_username_by_auth_token (uuid0 0))
    (after (_save_user env0 (PStr (lit "bob")) (PStr (lit "h2")) (PStr (lit "b@e.com")))
       (after (_save_user env0 (PStr alice) (PStr (lit "h1")) (PStr (lit "a@e.com"))) world0))
  = Ok alice.
Proof.
  apply (second_user_keeps_first_token env0 world0 alice (PStr (lit "h1")) (PStr (lit "a@e.com"))
           (lit "bob") (PStr (lit "h2")) (PStr (lit "b@e.com"))).
  vm_compute. discriminate.
Defined.

(** ** The operations in sequence *)

(** What [get_auth_token] answers once the record of the user is found:
    the verdict of bcrypt decides. *)
Lemma get_auth_token_outcome env w username password ent email h tok :
  redis w !! _user_id env (PStr username) = Some ent ->
  ujson_loads env (payload ent) = Ok (user_record (PStr username) email (PStr h) tok) ->
  outcome (get_auth_token env username password) w
  = match bcrypt_checkpw env password h with
    | Ok true => Ok (PStr tok)
    | Ok false => Raise InvalidAuthLoginException
    | Raise e => Raise e
    end.
Proof.
  intros Hk Hl. unfold get_auth_token. run.
  pose proof (get_user_by_username_found env
                (mkWorld (redis w)
                   (effects w ++ [LogInfo (lit "get auth token username: " ++ username)])
                   (entropy w)) username ent email (PStr h) tok Hk Hl) as F.
  unfold outcome in F.
  destruct (get_user_by_username env username _) as [r w']. cbn [fst] in F. subst r.
  unfold _is_password_valid. rewrite user_record_password. cbn [py_encode].
  destruct (bcrypt_checkpw env password h) as [[|]|e]; cbn [negb fst]; try reflexivity.
Qed.

Lemma token_id_not_user_id env auth_token username :
  _token_id auth_token <> _user_id env username.
Proof.
  unfold _token_id, _user_id. intros H.
  apply (f_equal head) in H. vm_compute in H. discriminate.
Qed.

(** X20. Register, confirm, log in. A valid [register] that is not automatic
    and whose password bcrypt hashes, followed by [confirm_registration]
    with the registration token it drew, leaves a user for whom [get_auth_token] with the same password
    returns the auth token of the confirmation, and that token maps back
    to the username. The codec is asked to read back the two records it
    wrote, and bcrypt to accept the password against the hash it made. *)
Theorem register_confirm_login env w username password email auto_hash url encoded hash :
  isalpha env username = true ->
  Re.py_match email_pattern email = true ->
  truthy_bytes (payload <$> redis w !! _user_id env (PStr username)) = false ->
  auto_register env auto_hash = false ->
  environ env (lit "DOMAIN_URL") = Some url ->
  utf8_encode password = Ok encoded ->
  bcrypt_hashpw env encoded (gensalt_at env (entropy w)) = Ok hash ->
  let registration_token := uuid4_at env (S (entropy w)) in
  let auth_token := uuid4_at env (S (S (entropy w))) in
  ujson_loads env (ujson_dumps env (registration_record username email hash))
    = Ok (registration_record username email hash) ->
  ujson_loads env
    (ujson_dumps env (user_record (PStr username) (PStr email) (PStr hash) auth_token))
    = Ok (user_record (PStr username) (PStr email) (PStr hash) auth_token) ->
  bcrypt_checkpw env password hash = Ok true ->
  let w1 := after (register env username password email auto_hash) w in
  let w2 := after (confirm_registration env registration_token) w1 in
  outcome (confirm_registration env registration_token) w1 = Ok tt
  /\ outcome (get_auth_token env username password) w2 = Ok (PStr auth_token)
  /\ outcome (get_username_by_auth_token auth_token) w2 = Ok username.
Proof.
  intros Hu He Hn Hauto Hurl Henc Hhash registration_token auth_token Hreg Huser Hpw w1 w2.
  subst w1 w2. unfold after.
  rewrite (register_pending_eq env w username password email auto_hash url encoded hash)
    by assumption.
  cbn [snd]. fold registration_token.
  match goal with
  | |- context [confirm_registration env registration_token ?W] =>
      pose proof (confirm_registration_eq env W registration_token
                    (Entry (ujson_dumps env (registration_record username email hash))
                       (Some one_day))
                    username email hash) as E
  end.
  cbn [redis effects entropy payload] in E. fold auth_token in E.
  unfold outcome. rewrite E by (try apply lookup_insert_eq; assumption). clear E.
  cbn [fst snd]. split; [reflexivity|]. split.
  - match goal with
    | |- fst (get_auth_token env username password ?W) = _ =>
        pose proof (get_auth_token_outcome env W username password
                      (Entry (ujson_dumps env (user_record (PStr username) (PStr email)
                                                 (PStr hash) auth_token)) None)
                      (PStr email) hash auth_token) as G
    end.
    cbn [redis payload] in G. unfold outcome in G. rewrite G.
    + rewrite Hpw. reflexivity.
    + rewrite lookup_insert_ne by apply token_id_not_user_id. apply lookup_insert_eq.
    + exact Huser.
  - unfold get_username_by_auth_token. run. rewrite lookup_insert_eq. steps.
    rewrite lookup_insert_eq. reflexivity.
Qed.

Lemma register_confirm_login_witness :
  outcome (confirm_registration env0 (uuid0 1))
    (after (register env0 alice (lit "Passw0rd!") (lit "alice@example.com") None) world0)
  = Ok tt
  /\ outcome (get_auth_token env0 alice (lit "Passw0rd!"))
       (after (confirm_registration env0 (uuid0 1))
          (after (register env0 alice (lit "Passw0rd!") (lit "alice@example.com") None) world0))
     = Ok (PStr (uuid0 2))
  /\ outcome (get_username_by_auth_token (uuid0 2))
       (after (confirm_registration env0 (uuid0 1))
          (after (register env0 alice (lit "Passw0rd!") (lit "alice@example.com") None) world0))
     = Ok alice.
Proof.
  apply (register_confirm_login env0 world0 alice (lit "Passw0rd!") (lit "alice@example.com")
           None (lit "https://megachess.example") (lit "Passw0rd!")
           (Bcrypt.hashpw (lit "Passw0rd!") (Bcrypt.gensalt 0))); vm_compute; reflexivity.
Defined.

(** X21. Pending registrations are not looked at by [register]: a username
    registered and not yet confirmed can be registered again (with
    passwords bcrypt hashes), and with distinct draws both registrations
    wait in the store, each under its own token. *)
Theorem register_twice_before_confirmation
    env w username password email auto_hash password' email' auto_hash' url
    encoded hash encoded' hash' :
  isalpha env username = true ->
  Re.py_match email_pattern email = true ->
  Re.py_match email_pattern email' = true ->
  truthy_bytes (payload <$> redis w !! _user_id env (PStr username)) = false ->
  utf8_encode password = Ok encoded ->
  bcrypt_hashpw env encoded (gensalt_at env (entropy w)) = Ok hash ->
  utf8_encode password' = Ok encoded' ->
  bcrypt_hashpw env encoded' (gensalt_at env (S (S (entropy w)))) = Ok hash' ->
  auto_register env auto_hash = false ->
  auto_register env auto_hash' = false ->
  environ env (lit "DOMAIN_URL") = Some url ->
  uuid4_at env (S (entropy w)) <> uuid4_at env (S (S (S (entropy w)))) ->
  let w1 := after (register env username password email auto_hash) w in
  let w2 := after (register env username password' email' auto_hash') w1 in
  outcome (register env username password' email' auto_hash') w1 = Ok (PBool true)
  /\ is_Some (redis w2 !! _registration_id (uuid4_at env (S (entropy w))))
  /\ is_Some (redis w2 !! _registration_id (uuid4_at env (S (S (S (entropy w)))))).
Proof.
  intros Hu He He' Hn Henc Hhash Henc' Hhash' Hauto Hauto' Hurl Hfresh w1 w2.
  subst w1 w2. unfold outcome, after.
  rewrite (register_pending_eq env w username password email auto_hash url encoded hash)
    by assumption.
  cbn [snd].
  rewrite (register_pending_eq env _ username password' email' auto_hash' url encoded' hash');
    try assumption.
  - cbn [fst snd redis entropy]. split; [reflexivity|]. split.
    + rewrite lookup_insert_ne, lookup_insert_eq; [eauto|].
      unfold _registration_id. intros H. apply app_inv_head in H. congruence.
    + rewrite lookup_insert_eq. eauto.
  - cbn [redis].
    rewrite lookup_insert_ne by apply registration_id_not_user_id. exact Hn.
Qed.

Lemma register_twice_before_confirmation_witness :
  outcome (register env0 alice (lit "other") (lit "mallory@example.com") None) world_pending
    = Ok (PBool true)
  /\ is_Some (redis world_registered_twice !! _registration_id (uuid0 1))
  /\ is_Some (redis world_registered_twice !! _registration_id (uuid0 3)).
Proof.
  apply (register_twice_before_confirmation env0 world0 alice (lit "Passw0rd!")
           (lit "alice@example.com") None (lit "other") (lit "mallory@example.com") None
           (lit "https://megachess.example")
           (lit "Passw0rd!") (Bcrypt.hashpw (lit "Passw0rd!") (Bcrypt.gensalt 0))
           (lit "other") (Bcrypt.hashpw (lit "other") (Bcrypt.gensalt 2)));
    try (vm_compute; reflexivity).
  vm_compute. discriminate.
Defined.

(** X22. Once [_save_user] has written a user, the username is taken: every
    later [register] for it fails with [UserAlreadyExistsException] and
    changes nothing in the store, provided the record the codec wrote is
    not the empty text. *)
Theorem register_after_saved_user env w username hash email password' email' auto_hash' :
  isalpha env username = true ->
  Re.py_match email_pattern email' = true ->
  ujson_dumps env (user_record (PStr username) email hash (uuid4_at env (entropy w))) <> [] ->
  let w1 := after (_save_user env (PStr username) hash email) w in
  outcome (register env username password' email' auto_hash') w1
    = Raise UserAlreadyExistsException
  /\ redis (after (register env username password' email' auto_hash') w1) = redis w1.
Proof.
  intros Hu He Hne w1.
  assert (truthy_bytes (payload <$> redis w1 !! _user_id env (PStr username)) = true) as Hex.
  { subst w1. unfold after. rewrite _save_user_eq. cbn [snd redis].
    rewrite lookup_insert_ne by apply token_id_not_user_id.
    rewrite lookup_insert_eq. cbn [fmap option_fmap option_map payload].
    destruct (ujson_dumps env _); [congruence | reflexivity]. }
  clearbody w1.
  unfold outcome, after, register, validate_registration. run. rewrite Hu, He. run.
  rewrite Hex. run. auto.
Qed.

Lemma register_after_saved_user_witness :
  outcome (register env0 alice (lit "pw") (lit "a@b.c") (Some (lit "s3cret")))
    (after (_save_user env0 (PStr alice) (PStr (lit "h")) (PStr (lit "a@e.com"))) world0)
  = Raise UserAlreadyExistsException
  /\ redis (after (register env0 alice (lit "pw") (lit "a@b.c") (Some (lit "s3cret")))
              (after (_save_user env0 (PStr alice) (PStr (lit "h")) (PStr (lit "a@e.com")))
                 world0))
     = redis (after (_save_user env0 (PStr alice) (PStr (lit "h")) (PStr (lit "a@e.com")))
                world0).
Proof.
  apply (register_after_saved_user env0 world0 alice (PStr (lit "h")) (PStr (lit "a@e.com"))
           (lit "pw") (lit "a@b.c") (Some (lit "s3cret")));
    try (vm_compute; reflexivity).
  vm_compute. discriminate.
Defined.

(** ** Passwords that cannot be hashed *)

(** X23. The password is hashed after validation and before anything is
    written: when the password cannot be encoded (a lone surrogate) or
    bcrypt refuses it, a [register] with valid username and address and a
    free username fails with that error, with or without the secret, and
    it has stored nothing and sent nothing. *)
Theorem register_unhashable_password env w username password email auto_hash e :
  isalpha env username = true ->
  Re.py_match email_pattern email = true ->
  truthy_bytes (payload <$> redis w !! _user_id env (PStr username)) = false ->
  utf8_encode password = Raise e
  \/ (exists encoded,
        utf8_encode password = Ok encoded
        /\ bcrypt_hashpw env encoded (gensalt_at env (entropy w)) = Raise e) ->
  outcome (register env username password email auto_hash) w = Raise e
  /\ redis (after (register env username password email auto_hash) w) = redis w
  /\ effects (after (register env username password email auto_hash) w)
     = effects w ++
       [ LogInfo (lit "register username: " ++ username);
         RedisGet (lit "user:" ++ username);
         LogInfo (lit "register username: " ++ username ++ lit " ok") ].
Proof.
  intros Hu He Hn Hbad. unfold outcome, after, register. run.
  rewrite validate_registration_pass by (cbn [redis]; assumption).
  run. unfold _hash_password. run.
  destruct Hbad as [Henc|(encoded & Henc & Hhash)]; rewrite Henc.
  - cbn [fst snd redis effects]. rewrite <- !app_assoc. auto.
  - cbn [entropy fst snd] in *. rewrite Hhash.
    cbn [fst snd redis effects]. rewrite <- !app_assoc. auto.
Qed.

Lemma register_unhashable_password_witness :
  outcome (register env0 alice [55296%N] (lit "a@b.c") (Some (lit "s3cret"))) world0
    = Raise UnicodeEncodeError
  /\ redis (after (register env0 alice [55296%N] (lit "a@b.c") (Some (lit "s3cret"))) world0)
     = redis world0
  /\ effects (after (register env0 alice [55296%N] (lit "a@b.c") (Some (lit "s3cret"))) world0)
     = effects world0 ++
       [ LogInfo (lit "register username: " ++ alice);
         RedisGet (lit "user:" ++ alice);
         LogInfo (lit "register username: " ++ alice ++ lit " ok") ].
Proof.
  apply (register_unhashable_password env0 world0 alice [55296%N] (lit "a@b.c")
           (Some (lit "s3cret")) UnicodeEncodeError); try (vm_compute; reflexivity).
  left. reflexivity.
Defined.
